(** * Parabolic profile analyzer: acquisition core of [MAIN.py]

    A shallow embedding of the PLC helpers ([auto_port], [read_plc],
    [write_plc_bit]), of the sampler tick [LivePage.read_plc], of the
    deviation table [LivePage.update_table] and of the scale-factor form
    [MoreSettingsPage.save], followed by the properties of the acquisition
    core that hold of them.  The rest of the application that bears on the
    core is embedded as well: [connect_plc], the register form
    [SettingsPage], the profile dialog ([get_profile], [save_csv],
    [create_profile]) and the import of a profile by [open_file].

    Conventions.
    - Python [int] is [Z]; Python [float] is an IEEE-754 binary64 value,
      [spec_float] at precision 53 and exponent bound 1024.
    - Module-level globals ([CONFIG], [connected]) and the widget
      attributes live in one [World] record that every helper threads.
    - The serial link is a log of the requests issued on it together with a
      device that answers each request from the log so far.
    - A Python exception is the [Raise] outcome; the world that comes with
      it keeps every mutation made before the exception.  The exceptions
      the libraries raise into the program are part of the model: the
      Modbus client raises [ConnectionException] on a link that is down and
      [struct.error] for an address that does not fit a frame, the plotting
      library raises [ValueError] for lists of different lengths. *)

From Stdlib Require Import ZArith List String Ascii Bool Lia QArith.
From Stdlib Require Import Strings.Byte.
From Stdlib Require Import Floats.SpecFloat.
From Stdlib Require Import DecimalString DecimalZ DecimalPos.
Import ListNotations.

Local Open Scope string_scope.
Local Open Scope Z_scope.
Local Open Scope list_scope.

(** ** Python values and builtins *)

Module Py.

(** Python's [float]: binary64. *)
Definition prec : Z := 53.
Definition emax : Z := 1024.
Definition float := spec_float.

(** An [int] read as a (not yet rounded) binary floating-point number with
    exponent 0. *)
Definition of_int (n : Z) : float :=
  match n with
  | Z0 => S754_zero false
  | Zpos p => S754_finite false p 0
  | Zneg p => S754_finite true p 0
  end.

(** The exceptions the program meets; [StructError] is [struct.error]. *)
Inductive exn : Type :=
| ZeroDivisionError
| ValueError
| StructError
| ConnectionException.

Inductive outcome (A : Type) : Type :=
| Ok (a : A)
| Raise (e : exn).
Arguments Ok {A} a.
Arguments Raise {A} e.

(** [a / b] on two ints: the double nearest to the exact quotient
    (ties to even), [ZeroDivisionError] when [b] is 0.  CPython also raises
    [OverflowError] when the quotient is beyond the double range; the
    dividends of this program are register words, so that case is left
    out. *)
Definition truediv (a b : Z) : outcome float :=
  if b =? 0 then Raise ZeroDivisionError
  else Ok (SFdiv prec emax (of_int a) (of_int b)).

(** [x - y] on two floats. *)
Definition sub (x y : float) : float := SFsub prec emax x y.

(** The exact rational value of a finite float. *)
Definition to_Q (f : float) : option Q :=
  match f with
  | S754_zero _ => Some 0%Q
  | S754_finite s m e =>
      let mag := match e with
                 | Z0 => Z.pos m # 1
                 | Zpos k => (Z.pos m * 2 ^ Z.pos k) # 1
                 | Zneg k => Z.pos m # (2 ^ k)
                 end%positive in
      Some (if s then Qopp mag else mag)
  | _ => None
  end.

(** [needle in hay] on two strings: case-sensitive substring test. *)
Fixpoint contains (needle hay : string) : bool :=
  prefix needle hay
  || match hay with
     | EmptyString => false
     | String _ rest => contains needle rest
     end.

(** [int(text)] for ASCII text: surrounding white space (the space and the
    characters 9 to 13) is stripped, one sign is allowed, then decimal
    digits, single underscores allowed between digits. *)
Definition isspace (c : ascii) : bool :=
  let n := nat_of_ascii c in
  (Nat.eqb n 32 || (Nat.leb 9 n && Nat.leb n 13))%bool.

Fixpoint lstrip (s : string) : string :=
  match s with
  | String c rest => if isspace c then lstrip rest else s
  | EmptyString => EmptyString
  end.

Fixpoint rstrip (s : string) : string :=
  match s with
  | EmptyString => EmptyString
  | String c rest =>
      match rstrip rest with
      | EmptyString => if isspace c then EmptyString else String c EmptyString
      | r => String c r
      end
  end.

Definition strip (s : string) : string := rstrip (lstrip s).

Definition digit (c : ascii) : option Z :=
  let n := nat_of_ascii c in
  if (Nat.leb 48 n && Nat.leb n 57)%bool then Some (Z.of_nat (n - 48)) else None.

Fixpoint digits (s : string) (acc : Z) (after_digit : bool) : option Z :=
  match s with
  | EmptyString => if after_digit then Some acc else None
  | String c rest =>
      if Ascii.eqb c "_" then
        if after_digit then digits rest acc false else None
      else
        match digit c with
        | Some d => digits rest (10 * acc + d) true
        | None => None
        end
  end.

Definition int (text : string) : outcome Z :=
  let t := strip text in
  let parsed :=
    match t with
    | String "+" rest => digits rest 0 false
    | String "-" rest => option_map Z.opp (digits rest 0 false)
    | _ => digits t 0 false
    end in
  match parsed with
  | Some n => Ok n
  | None => Raise ValueError
  end.

End Py.

Import Py.

(** ** Configuration ([CONFIG]) *)

(** A register entry [{"type": t, "addr": a}]. *)
Record RegisterRef : Type := mkReg { type : string; addr : Z }.

Record Config : Type := mkConfig {
  baudrate : Z;
  x_encoder : RegisterRef;
  y_encoder : RegisterRef;
  start_bit : RegisterRef;
  stop_bit : RegisterRef;
  run_bit : RegisterRef;
  plot_start_bit : RegisterRef;
  x_zero_bit : RegisterRef;
  y_zero_bit : RegisterRef;
  x_ppr : Z;
  y_ppr : Z
}.

(** The dictionary literal the module starts with. *)
Definition CONFIG0 : Config := {|
  baudrate := 9600;
  x_encoder := mkReg "D" 100;
  y_encoder := mkReg "D" 102;
  start_bit := mkReg "M" 10;
  stop_bit := mkReg "M" 11;
  run_bit := mkReg "M" 12;
  plot_start_bit := mkReg "M" 13;
  x_zero_bit := mkReg "M" 30;
  y_zero_bit := mkReg "M" 31;
  x_ppr := 1000;
  y_ppr := 1000
|}.

Definition set_x_ppr (v : Z) (c : Config) : Config :=
  mkConfig (baudrate c) (x_encoder c) (y_encoder c) (start_bit c) (stop_bit c)
    (run_bit c) (plot_start_bit c) (x_zero_bit c) (y_zero_bit c) v (y_ppr c).

Definition set_y_ppr (v : Z) (c : Config) : Config :=
  mkConfig (baudrate c) (x_encoder c) (y_encoder c) (start_bit c) (stop_bit c)
    (run_bit c) (plot_start_bit c) (x_zero_bit c) (y_zero_bit c) (x_ppr c) v.

(** ** The Modbus link *)

Module Modbus.

(** The four client calls of the program, with their arguments
    (address, count or value, and [unit], here [slave]). *)
Inductive Request : Type :=
| ReadHoldingRegisters (address count slave : Z)
| ReadCoils (address count slave : Z)
| ReadDiscreteInputs (address count slave : Z)
| WriteCoil (address : Z) (value : bool) (slave : Z).

Definition address (q : Request) : Z :=
  match q with
  | ReadHoldingRegisters a _ _ | ReadCoils a _ _
  | ReadDiscreteInputs a _ _ | WriteCoil a _ _ => a
  end.

(** An address the client can put in a frame: an unsigned 16-bit number.
    For any other address it raises [struct.error] while building the
    frame. *)
Definition encodable (a : Z) : bool := (0 <=? a) && (a <=? 65535).

(** The link and the device on the other end, each a function of the
    requests made so far.  [online] tells whether the serial port is open,
    or can be opened again, when the client is called; when it is not, the
    client raises [ConnectionException].  Each reader gets an address;
    [None] is a reply [r] with [r.isError()], [Some] carries the single
    item of a normal reply to a one-item request: the two data bytes of the
    register, high byte first, or the bit. *)
Record Device : Type := mkDevice {
  online : list Request -> bool;
  holding : list Request -> Z -> option (byte * byte);
  coils : list Request -> Z -> option bool;
  inputs : list Request -> Z -> option bool
}.

(** [r.registers[0]]: the client decodes the two data bytes as one
    big-endian unsigned word. *)
Definition register (data : byte * byte) : Z :=
  256 * Z.of_N (Byte.to_N (fst data)) + Z.of_N (Byte.to_N (snd data)).

End Modbus.

Import Modbus.

(** ** Program state *)

(** What [read_plc] returns besides [None]: a register word or a bit. *)
Inductive value : Type :=
| VInt (n : Z)
| VBool (b : bool).

(** A [bool] is an [int] in arithmetic. *)
Definition as_int (v : value) : Z :=
  match v with
  | VInt n => n
  | VBool b => if b then 1 else 0
  end.

(** Truth value of what [read_plc] returned. *)
Definition truthy (v : option value) : bool :=
  match v with
  | None => false
  | Some (VInt n) => negb (n =? 0)
  | Some (VBool b) => b
  end.

(** A table cell before [str] is applied: a float, or the empty string
    that stands for a missing value. *)
Inductive cell : Type :=
| Num (f : float)
| Blank.

(** The six columns of a table row. *)
Record Row : Type := mkRow {
  ref_x_cell : cell;
  ref_y_cell : cell;
  actual_x_cell : cell;
  actual_y_cell : cell;
  diff_x_cell : cell;
  diff_y_cell : cell
}.

(** Attributes of [LivePage].  The labels [xv], [yv] hold the value they
    show ([None] for the initial dash); [run] is the text of the run label
    without its leading bullet glyph; [table] is the content of the table
    widget. *)
Record LivePageObj : Type := mkLive {
  ref_x : list float;
  ref_y : list float;
  act_x : list float;
  act_y : list float;
  xv : option float;
  yv : option float;
  run : string;
  table : list Row
}.

Record World : Type := mkWorld {
  CONFIG : Config;
  connected : bool;
  plc : Device;
  wire : list Request;
  live : LivePageObj
}.

Definition with_CONFIG (c : Config) (w : World) : World :=
  mkWorld c (connected w) (plc w) (wire w) (live w).

Definition with_wire (l : list Request) (w : World) : World :=
  mkWorld (CONFIG w) (connected w) (plc w) l (live w).

Definition with_live (p : LivePageObj) (w : World) : World :=
  mkWorld (CONFIG w) (connected w) (plc w) (wire w) p.

(** ** The monad of helpers: state and exceptions *)

Definition M (A : Type) : Type := World -> outcome A * World.

Definition ret {A : Type} (a : A) : M A := fun w => (Ok a, w).

Definition bind {A B : Type} (m : M A) (k : A -> M B) : M B :=
  fun w =>
    match m w with
    | (Ok a, w') => k a w'
    | (Raise e, w') => (Raise e, w')
    end.

Definition gets {A : Type} (f : World -> A) : M A := fun w => (Ok (f w), w).

Definition modify (f : World -> World) : M unit := fun w => (Ok tt, f w).

Definition lift {A : Type} (o : outcome A) : M A := fun w => (o, w).

Declare Scope py_scope.
Delimit Scope py_scope with py.
Notation "x <- m ;; k" := (bind m (fun x => k))
  (at level 61, m at next level, right associativity) : py_scope.
Notation "m ;; k" := (bind m (fun _ => k))
  (at level 61, right associativity) : py_scope.
Local Open Scope py_scope.

(** ** PLC helpers *)

(** An entry of [serial.tools.list_ports.comports()]. *)
Record ListPortInfo : Type := mkPort { device : string; description : string }.

(** [auto_port()], given what [comports()] lists. *)
Fixpoint auto_port (comports : list ListPortInfo) : option string :=
  match comports with
  | [] => None
  | p :: rest =>
      if (contains "USB" (description p) || contains "Serial" (description p))%bool
      then Some (device p)
      else auto_port rest
  end.

(** The methods of the global [client].  A call first makes sure the port
    is open and raises [ConnectionException] when it is not; it then builds
    the frame and raises [struct.error] when the address does not fit; in
    both cases nothing is sent.  Otherwise the request is logged on the wire
    and the call returns what the device answers from the log before it. *)
Module client.

Definition execute {A : Type} (q : Request) (reply : World -> A) : M A :=
  fun w =>
    if negb (online (plc w) (wire w)) then (Raise ConnectionException, w)
    else if negb (encodable (address q)) then (Raise StructError, w)
    else (Ok (reply w), with_wire (wire w ++ [q]) w).

Definition read_holding_registers (a count slave : Z) : M (option (byte * byte)) :=
  execute (ReadHoldingRegisters a count slave)
    (fun w => holding (plc w) (wire w) a).

Definition read_coils (a count slave : Z) : M (option bool) :=
  execute (ReadCoils a count slave) (fun w => coils (plc w) (wire w) a).

Definition read_discrete_inputs (a count slave : Z) : M (option bool) :=
  execute (ReadDiscreteInputs a count slave)
    (fun w => inputs (plc w) (wire w) a).

Definition write_coil (a : Z) (v : bool) (slave : Z) : M unit :=
  execute (WriteCoil a v slave) (fun _ => tt).

End client.

(** [t in [...]] on a list of strings. *)
Definition tag_in (t : string) (tags : list string) : bool :=
  existsb (String.eqb t) tags.

Definition read_plc (reg : RegisterRef) : M (option value) :=
  c <- gets connected ;;
  if negb c then ret None
  else
    let t := type reg in
    let a := addr reg in
    if tag_in t ["D"; "C"; "T"] then
      r <- client.read_holding_registers a 1 1 ;;
      ret (match r with
           | Some data => Some (VInt (register data))
           | None => None
           end)
    else if tag_in t ["M"; "Y"] then
      r <- client.read_coils a 1 1 ;;
      ret (match r with
           | Some bit => Some (VBool bit)
           | None => None
           end)
    else if String.eqb t "X" then
      r <- client.read_discrete_inputs a 1 1 ;;
      ret (match r with
           | Some bit => Some (VBool bit)
           | None => None
           end)
    else ret None.

Definition write_plc_bit (reg : RegisterRef) : M unit :=
  c <- gets connected ;;
  if (c && tag_in (type reg) ["M"; "Y"])%bool
  then client.write_coil (addr reg) true 1
  else ret tt.

(** ** The live page *)

Module LivePage.

(** [LivePage.__init__]: the attributes before any reference or sample. *)
Definition init : LivePageObj :=
  mkLive [] [] [] [] None None "RUN OFF" [].

Definition set_ref (rx ry : list float) (p : LivePageObj) : LivePageObj :=
  mkLive rx ry (act_x p) (act_y p) (xv p) (yv p) (run p) (table p).

Definition append_act_x (v : float) (p : LivePageObj) : LivePageObj :=
  mkLive (ref_x p) (ref_y p) (act_x p ++ [v]) (act_y p) (xv p) (yv p) (run p) (table p).

Definition append_act_y (v : float) (p : LivePageObj) : LivePageObj :=
  mkLive (ref_x p) (ref_y p) (act_x p) (act_y p ++ [v]) (xv p) (yv p) (run p) (table p).

Definition set_labels (x y : float) (r : string) (p : LivePageObj) : LivePageObj :=
  mkLive (ref_x p) (ref_y p) (act_x p) (act_y p) (Some x) (Some y) r (table p).

Definition set_table (t : list Row) (p : LivePageObj) : LivePageObj :=
  mkLive (ref_x p) (ref_y p) (act_x p) (act_y p) (xv p) (yv p) (run p) t.

(** [l[i] if i < len(l) else ""]. *)
Definition item (l : list float) (i : nat) : cell :=
  if (i <? List.length l)%nat then Num (nth i l (S754_zero false)) else Blank.

(** [a - r if a != "" and r != "" else ""]. *)
Definition diff (a r : cell) : cell :=
  match a, r with
  | Num x, Num y => Num (sub x y)
  | _, _ => Blank
  end.

(** The body of the loop of [update_table] for row [i]. *)
Definition row (self : LivePageObj) (i : nat) : Row :=
  let rx := item (ref_x self) i in
  let ry := item (ref_y self) i in
  let ax := item (act_x self) i in
  let ay := item (act_y self) i in
  let dx := diff ax rx in
  let dy := diff ay ry in
  mkRow rx ry ax ay dx dy.

(** The rows [update_table] puts in the table widget. *)
Definition rows_of (self : LivePageObj) : list Row :=
  let rows := Nat.max (List.length (ref_x self)) (List.length (act_x self)) in
  map (row self) (seq 0 rows).

Definition update_table : M unit :=
  modify (fun w => with_live (set_table (rows_of (live w)) (live w)) w).

(** [self.ax.plot(x, y, ...)]: the plotting library raises [ValueError]
    for two lists of different lengths. *)
Definition plot (x y : list float) : M unit :=
  if Nat.eqb (List.length x) (List.length y) then ret tt
  else lift (Raise ValueError).

(** [if l:] on a list. *)
Definition nonempty (l : list float) : bool :=
  match l with
  | [] => false
  | _ :: _ => true
  end.

(** [update_plot]: the reference is plotted when [ref_x] is not empty, the
    history when [act_x] is not empty; the canvas itself is not part of the
    world. *)
Definition update_plot : M unit :=
  self <- gets live ;;
  (if nonempty (ref_x self) then plot (ref_x self) (ref_y self) else ret tt) ;;
  (if nonempty (act_x self) then plot (act_x self) (act_y self) else ret tt) ;;
  ret tt.

Definition set_reference (rx ry : list float) : M unit :=
  modify (fun w => with_live (set_ref rx ry (live w)) w) ;;
  update_plot ;;
  update_table.

(** The statements of [read_plc] below its three reads, from the test
    [if xr is None or yr is None] on. *)
Definition after_reads (xr yr run : option value) : M unit :=
  match xr, yr with
  | Some x, Some y =>
      px <- gets (fun w => x_ppr (CONFIG w)) ;;
      ax <- lift (truediv (as_int x) px) ;;
      py <- gets (fun w => y_ppr (CONFIG w)) ;;
      ay <- lift (truediv (as_int y) py) ;;
      modify (fun w => with_live (append_act_x ax (live w)) w) ;;
      modify (fun w => with_live (append_act_y ay (live w)) w) ;;
      modify (fun w =>
        with_live (set_labels ax ay (if truthy run then "RUN ON" else "RUN OFF")
                     (live w)) w) ;;
      update_plot ;;
      update_table
  | _, _ => ret tt
  end.

(** The timer slot: one tick of the sampler. *)
Definition read_plc : M unit :=
  rx <- gets (fun w => x_encoder (CONFIG w)) ;;
  xr <- read_plc rx ;;
  ry <- gets (fun w => y_encoder (CONFIG w)) ;;
  yr <- read_plc ry ;;
  rr <- gets (fun w => run_bit (CONFIG w)) ;;
  run <- read_plc rr ;;
  after_reads xr yr run.

End LivePage.

(** ** The scale-factor form *)

Module MoreSettingsPage.

(** [save], given the text of the two line edits [xp] and [yp]. *)
Definition save (xp yp : string) : M unit :=
  x <- lift (int xp) ;;
  modify (fun w => with_CONFIG (set_x_ppr x (CONFIG w)) w) ;;
  y <- lift (int yp) ;;
  modify (fun w => with_CONFIG (set_y_ppr y (CONFIG w)) w).

End MoreSettingsPage.

(** ** Runs of the application *)

(** What the user and the timer make happen. *)
Inductive Event : Type :=
| Tick
| SetReference (rx ry : list float)
| SaveScale (xp yp : string)
| Zero (reg : RegisterRef).

Definition handle (e : Event) : M unit :=
  match e with
  | Tick => LivePage.read_plc
  | SetReference rx ry => LivePage.set_reference rx ry
  | SaveScale xp yp => MoreSettingsPage.save xp yp
  | Zero reg => write_plc_bit reg
  end.

(** The world after an event, whether its handler returned or raised. *)
Definition step (w : World) (e : Event) : World := snd (handle e w).

Definition run_events (w : World) (es : list Event) : World :=
  fold_left step es w.

(** The world when the window opens: default configuration, nothing sent,
    an empty live page. *)
Definition startup (c : bool) (d : Device) : World :=
  mkWorld CONFIG0 c d [] LivePage.init.

(** The first two statements of the tick, on their own: the x-encoder read
    from a world, and the y-encoder read that follows it. *)
Definition x_read (w : World) : outcome (option value) * World :=
  read_plc (x_encoder (CONFIG w)) w.

Definition y_read (w : World) : outcome (option value) * World :=
  read_plc (y_encoder (CONFIG (snd (x_read w)))) (snd (x_read w)).

(** The float a decimal literal [n/d] denotes: the double nearest to it. *)
Definition decimal (n d : Z) : float := SFdiv prec emax (of_int n) (of_int d).

(** A device that answers every read with an error reply. *)
Definition silent_plc : Device :=
  mkDevice (fun _ => true) (fun _ _ => None) (fun _ _ => None) (fun _ _ => None).

(** A device whose register 100 holds 500 and register 102 holds 250. *)
Definition bench_plc : Device :=
  mkDevice (fun _ => true)
           (fun _ a => if a =? 100 then Some (x01, xf4)%byte
                       else if a =? 102 then Some (x00, xfa)%byte
                       else None)
           (fun _ _ => Some true) (fun _ _ => None).

(** ** Notions the properties are stated with *)

(** The two histories have the same length. *)
Definition aligned (w : World) : Prop :=
  List.length (act_x (live w)) = List.length (act_y (live w)).

(** A live page holding the reference (0,0), (1,2) and the sample
    (0.1, 0.1). *)
Definition bench_page : LivePageObj :=
  mkLive [decimal 0 1; decimal 1 1] [decimal 0 1; decimal 2 1]
         [decimal 1 10] [decimal 1 10] None None "RUN OFF" [].

(** The claimed update rule for scale factors, in the spec's words: a zero
    or negative factor rejects the whole update and the configuration stays
    as it was. *)
Definition save_claimed (x y : Z) (c : Config) : option Config :=
  if ((x <=? 0) || (y <=? 0))%bool then None
  else Some (set_y_ppr y (set_x_ppr x c)).

(** ASCII lower case, for the claimed matching rule. *)
Definition lower_ascii (c : ascii) : ascii :=
  let n := nat_of_ascii c in
  if (Nat.leb 65 n && Nat.leb n 90)%bool then ascii_of_nat (n + 32) else c.

Fixpoint lower (s : string) : string :=
  match s with
  | EmptyString => EmptyString
  | String c rest => String (lower_ascii c) (lower rest)
  end.

(** The claimed discovery rule, in the spec's words: the first port whose
    descriptive name contains an allow-list entry, letter case ignored. *)
Fixpoint discoverPort_claimed (comports : list ListPortInfo) : option string :=
  match comports with
  | [] => None
  | p :: rest =>
      if (contains (lower "USB") (lower (description p))
          || contains (lower "Serial") (lower (description p)))%bool
      then Some (device p)
      else discoverPort_claimed rest
  end.

(** The name of a port reads as an adapter: it has "USB" or "Serial" in it,
    letter for letter. *)
Definition adapter_name (p : ListPortInfo) : Prop :=
  exists pre suf,
    description p = (pre ++ "USB" ++ suf)%string
    \/ description p = (pre ++ "Serial" ++ suf)%string.

(** ** The rest of the application *)

(** [str(n)] on an int: decimal digits, a minus sign when negative. *)
Definition str (n : Z) : string := NilZero.string_of_int (Z.to_int n).

(** The text the scale-factor form shows when it is built
    ([MoreSettingsPage.__init__]): the two line edits [xp] and [yp]. *)
Definition MoreSettingsPage_init (c : Config) : string * string :=
  (str (x_ppr c), str (y_ppr c)).

(** *** The register form *)

Module SettingsPage.

(** The keys of [self.fields], in the order [__init__] inserts them. *)
Inductive Key : Type :=
| k_x_encoder
| k_y_encoder
| k_start_bit
| k_stop_bit
| k_run_bit
| k_plot_start_bit.

Definition keys : list Key :=
  [k_x_encoder; k_y_encoder; k_start_bit; k_stop_bit; k_run_bit;
   k_plot_start_bit].

Definition Key_eqb (a b : Key) : bool :=
  match a, b with
  | k_x_encoder, k_x_encoder | k_y_encoder, k_y_encoder
  | k_start_bit, k_start_bit | k_stop_bit, k_stop_bit
  | k_run_bit, k_run_bit | k_plot_start_bit, k_plot_start_bit => true
  | _, _ => false
  end.

(** [CONFIG[k]]. *)
Definition get (k : Key) (c : Config) : RegisterRef :=
  match k with
  | k_x_encoder => x_encoder c
  | k_y_encoder => y_encoder c
  | k_start_bit => start_bit c
  | k_stop_bit => stop_bit c
  | k_run_bit => run_bit c
  | k_plot_start_bit => plot_start_bit c
  end.

(** [CONFIG[k] = r]. *)
Definition set (k : Key) (r : RegisterRef) (c : Config) : Config :=
  mkConfig (baudrate c)
    (if Key_eqb k k_x_encoder then r else x_encoder c)
    (if Key_eqb k k_y_encoder then r else y_encoder c)
    (if Key_eqb k k_start_bit then r else start_bit c)
    (if Key_eqb k k_stop_bit then r else stop_bit c)
    (if Key_eqb k k_run_bit then r else run_bit c)
    (if Key_eqb k k_plot_start_bit then r else plot_start_bit c)
    (x_zero_bit c) (y_zero_bit c) (x_ppr c) (y_ppr c).

(** The entries of each combo box. *)
Definition items : list string := ["D"; "M"; "X"; "Y"; "C"; "T"].

(** The two widgets of a row: the text the combo box shows and the text of
    the line edit. *)
Record Field : Type := mkField { currentText : string; text : string }.

(** [row(title, key)] of [__init__]: [setCurrentText] selects the configured
    tag when it is an entry of the combo box and otherwise leaves the first
    entry selected; the line edit shows [str] of the address. *)
Definition row (c : Config) (k : Key) : Field :=
  mkField (if tag_in (type (get k c)) items then type (get k c) else "D")
          (str (addr (get k c))).

(** [self.fields] as [__init__] leaves it. *)
Definition init (c : Config) : Key -> Field := row c.

(** The loop of [save] over the keys [ks] still to do. *)
Fixpoint save_loop (fields : Key -> Field) (ks : list Key) : M unit :=
  match ks with
  | [] => ret tt
  | k :: rest =>
      a <- lift (int (text (fields k))) ;;
      modify (fun w =>
        with_CONFIG (set k (mkReg (currentText (fields k)) a) (CONFIG w)) w) ;;
      save_loop fields rest
  end.

(** [save]; switching the stacked widget back to the live page afterwards
    is outside the world. *)
Definition save (fields : Key -> Field) : M unit := save_loop fields keys.

End SettingsPage.

(** *** Connecting *)

Module Serial.

(** The keyword arguments [ModbusSerialClient] is built with. *)
Record Client : Type := mkClient {
  method : string;
  port : string;
  baudrate : Z;
  parity : string;
  stopbits : Z;
  bytesize : Z;
  timeout : Z
}.

End Serial.

(** The world together with the global [client]. *)
Record App : Type := mkApp { world : World; client_obj : option Serial.Client }.

Definition with_connected (b : bool) (w : World) : World :=
  mkWorld (CONFIG w) b (plc w) (wire w) (live w).

(** [not port] on what [auto_port] returned: [None] and the empty string
    are false. *)
Definition no_port (port : option string) : bool :=
  match port with
  | None => true
  | Some EmptyString => true
  | Some _ => false
  end.

(** [connect_plc()], given what [comports()] lists and what
    [client.connect()] answers for a client. *)
Definition connect_plc (comports : list ListPortInfo)
    (connect : Serial.Client -> bool) (a : App) : App :=
  let port := auto_port comports in
  if no_port port then mkApp (with_connected false (world a)) (client_obj a)
  else
    let c := Serial.mkClient "rtu"
               (match port with Some p => p | None => EmptyString end)
               (baudrate (CONFIG (world a))) "E" 1 8 1 in
    mkApp (with_connected (connect c) (world a)) (Some c).

(** *** Authoring a profile *)

Section Profile.

(** [float(text)]: [None] when it raises [ValueError]. *)
Variable float_of_text : string -> option float.

(** The rows of the dialog's table: per cell the text of its item, [None]
    where the cell has no item. *)
Definition Cells : Type := list (option string * option string).

(** One round of the loop of [get_profile]. *)
Definition profile_row (acc : list float * list float)
    (r : option string * option string) : list float * list float :=
  match r with
  | (Some x, Some y) =>
      match float_of_text x with
      | Some fx =>
          match float_of_text y with
          | Some fy => (fst acc ++ [fx], snd acc ++ [fy])
          | None => (fst acc ++ [fx], snd acc)
          end
      | None => acc
      end
  | _ => acc
  end.

Definition get_profile (cells : Cells) : list float * list float :=
  fold_left profile_row cells ([], []).

(** What [save_csv] ends in: the warning box, a cancelled file dialog, or
    the call [DataFrame({...}).to_csv(path, index=False)]. *)
Inductive CsvAction : Type :=
| WarnEmpty
| NoPath
| ToCsv (path : string) (rx ry : list float).

(** [save_csv], given the path the file dialog returns (empty when
    cancelled). *)
Definition save_csv (cells : Cells) (path : string) : CsvAction :=
  let rx := fst (get_profile cells) in
  let ry := snd (get_profile cells) in
  match rx with
  | [] => WarnEmpty
  | _ => if String.eqb path "" then NoPath else ToCsv path rx ry
  end.

(** [MainWindow.create_profile], given whether the dialog was accepted. *)
Definition create_profile (cells : Cells) (accepted : bool) : M unit :=
  if accepted
  then LivePage.set_reference (fst (get_profile cells)) (snd (get_profile cells))
  else ret tt.

(** A row that passes the test [if x and y] and whose first cell reads as
    a float. *)
Definition counts_x (r : option string * option string) : bool :=
  match r with
  | (Some x, Some _) =>
      match float_of_text x with Some _ => true | None => false end
  | _ => false
  end.

(** Such a row whose second cell does not read as a float. *)
Definition half_row (r : option string * option string) : bool :=
  match r with
  | (Some x, Some y) =>
      match float_of_text x, float_of_text y with
      | Some _, None => true
      | _, _ => false
      end
  | _ => false
  end.

(** The point a row stands for, when both cells read as floats. *)
Definition point_of (r : option string * option string)
  : option (float * float) :=
  match r with
  | (Some x, Some y) =>
      match float_of_text x, float_of_text y with
      | Some fx, Some fy => Some (fx, fy)
      | _, _ => None
      end
  | _ => None
  end.

Fixpoint points_of (cells : Cells) : list (float * float) :=
  match cells with
  | [] => []
  | r :: rest =>
      match point_of r with
      | Some p => p :: points_of rest
      | None => points_of rest
      end
  end.

End Profile.

(** *** Runs with both settings pages *)

Inductive Action : Type :=
| Do (e : Event)
| SaveRegisters (fields : SettingsPage.Key -> SettingsPage.Field).

Definition perform (a : Action) : M unit :=
  match a with
  | Do e => handle e
  | SaveRegisters fields => SettingsPage.save fields
  end.

Definition act (w : World) (a : Action) : World := snd (perform a w).

Definition run_actions (w : World) (l : list Action) : World :=
  fold_left act l w.

(** A request for one item from unit 1, or a write of [True] to unit 1. *)
Definition single_item (q : Request) : Prop :=
  match q with
  | ReadHoldingRegisters _ count slave
  | ReadCoils _ count slave
  | ReadDiscreteInputs _ count slave => count = 1 /\ slave = 1
  | WriteCoil _ v slave => v = true /\ slave = 1
  end.

Definition is_read (q : Request) : Prop :=
  match q with
  | WriteCoil _ _ _ => False
  | _ => True
  end.

(** The last element of a list, if any. *)
Definition latest {A : Type} (l : list A) : option A :=
  match rev l with
  | [] => None
  | a :: _ => Some a
  end.

(** The run-bit read of a tick, after its two encoder reads. *)
Definition run_read (w : World) : outcome (option value) * World :=
  read_plc (run_bit (CONFIG (snd (y_read w)))) (snd (y_read w)).

(** A float parser for whole numbers only, to run the profile dialog on. *)
Definition whole_number (s : string) : option float :=
  match int s with
  | Ok n => Some (decimal n 1)
  | Raise _ => None
  end.

(** A string none of whose characters is white space. *)
Fixpoint spaceless (s : string) : Prop :=
  match s with
  | EmptyString => True
  | String c rest => isspace c = false /\ spaceless rest
  end.

(** The configuration once the register form has stored the rows of the
    keys [ks], the line edit of key [k] reading as [a k]. *)
Definition stored (fields : SettingsPage.Key -> SettingsPage.Field)
    (a : SettingsPage.Key -> Z) (ks : list SettingsPage.Key) (c : Config)
  : Config :=
  fold_left
    (fun c k =>
       SettingsPage.set k
         (mkReg (SettingsPage.currentText (fields k)) (a k)) c)
    ks c.

(** A form whose six address fields hold the given texts, every combo box
    on "D". *)
Definition typed_form (t1 t2 t3 t4 t5 t6 : string)
  : SettingsPage.Key -> SettingsPage.Field :=
  fun k =>
    SettingsPage.mkField "D"
      match k with
      | SettingsPage.k_x_encoder => t1
      | SettingsPage.k_y_encoder => t2
      | SettingsPage.k_start_bit => t3
      | SettingsPage.k_stop_bit => t4
      | SettingsPage.k_run_bit => t5
      | SettingsPage.k_plot_start_bit => t6
      end.

(** The request [read_plc] makes for a register entry when connected: none
    for a tag it does not know. *)
Definition polls (reg : RegisterRef) : list Request :=
  if tag_in (type reg) ["D"; "C"; "T"] then [ReadHoldingRegisters (addr reg) 1 1]
  else if tag_in (type reg) ["M"; "Y"] then [ReadCoils (addr reg) 1 1]
  else if String.eqb (type reg) "X" then [ReadDiscreteInputs (addr reg) 1 1]
  else [].

Definition sent (w : World) (reg : RegisterRef) : list Request :=
  if connected w then polls reg else [].

(** Whether [update_plot] can draw the page: each pair of lists it plots
    has equal lengths. *)
Definition plottable (p : LivePageObj) : bool :=
  (if LivePage.nonempty (ref_x p)
   then Nat.eqb (List.length (ref_x p)) (List.length (ref_y p)) else true)
  && (if LivePage.nonempty (act_x p)
      then Nat.eqb (List.length (act_x p)) (List.length (act_y p)) else true).

(** The live page once a tick has appended the sample [(ax, ay)] and set
    the labels, before it redraws. *)
Definition recorded (ax ay : float) (r : string) (p : LivePageObj) : LivePageObj :=
  LivePage.set_labels ax ay r
    (LivePage.append_act_y ay (LivePage.append_act_x ax p)).

(** The live page after [update_plot] followed by [update_table]: the
    table is rebuilt when the plot could be drawn and is left as it was
    when [update_plot] raised. *)
Definition redrawn (p : LivePageObj) : LivePageObj :=
  if plottable p then LivePage.set_table (LivePage.rows_of p) p else p.

(** The text a tick gives the run label. *)
Definition run_label (rn : option value) : string :=
  if truthy rn then "RUN ON" else "RUN OFF".

(** What a connected read returns for a register entry once its request
    has gone through. *)
Definition answer (reg : RegisterRef) (w : World) : option value :=
  if tag_in (type reg) ["D"; "C"; "T"] then
    match holding (plc w) (wire w) (addr reg) with
    | Some data => Some (VInt (register data))
    | None => None
    end
  else if tag_in (type reg) ["M"; "Y"] then
    match coils (plc w) (wire w) (addr reg) with
    | Some bit => Some (VBool bit)
    | None => None
    end
  else if String.eqb (type reg) "X" then
    match inputs (plc w) (wire w) (addr reg) with
    | Some bit => Some (VBool bit)
    | None => None
    end
  else None.

(** The three reads of a tick all return. *)
Definition reads_return (w : World) (xr yr rn : option value) : Prop :=
  fst (x_read w) = Ok xr /\ fst (y_read w) = Ok yr /\ fst (run_read w) = Ok rn.

(** A device that answers an error to the first request and whose link is
    down from then on. *)
Definition dropping_plc : Device :=
  mkDevice (fun l => match l with [] => true | _ :: _ => false end)
    (fun _ _ => None) (fun _ _ => None) (fun _ _ => None).

(** How many ticks a run has. *)
Fixpoint count_ticks (l : list Action) : nat :=
  match l with
  | [] => 0
  | Do Tick :: rest => S (count_ticks rest)
  | _ :: rest => count_ticks rest
  end.

(** The table shows the deviation of the lists the page holds. *)
Definition synced (p : LivePageObj) : Prop := table p = LivePage.rows_of p.

(** The two readouts show the latest sample. *)
Definition readouts_latest (p : LivePageObj) : Prop :=
  xv p = latest (act_x p) /\ yv p = latest (act_y p).

(** The requests of one tick. *)
Definition tick_polls (w : World) : list Request :=
  sent w (x_encoder (CONFIG w)) ++ sent w (y_encoder (CONFIG w))
  ++ sent w (run_bit (CONFIG w)).

(** A device like [bench_plc] whose coils answer with an error. *)
Definition bench_no_run_plc : Device :=
  mkDevice (fun _ => true) (holding bench_plc) (fun _ _ => None)
    (fun _ _ => None).

(** The X column and the Y column [get_profile] collects, row by row. *)
Definition col_x (float_of_text : string -> option float)
    (r : option string * option string) : list float :=
  match r with
  | (Some x, Some _) =>
      match float_of_text x with
      | Some fx => [fx]
      | None => []
      end
  | _ => []
  end.

Definition col_y (float_of_text : string -> option float)
    (r : option string * option string) : list float :=
  match r with
  | (Some x, Some y) =>
      match float_of_text x, float_of_text y with
      | Some _, Some fy => [fy]
      | _, _ => []
      end
  | _ => []
  end.

(** ** Exporting and importing a profile *)

(** The text files the application writes and reads: a path gives the
    lines of a file. *)
Definition Files : Type := string -> option (list string).

Definition no_files : Files := fun _ => None.

Definition write_file (path : string) (lines : list string) (fs : Files) : Files :=
  fun p => if String.eqb p path then Some lines else fs p.

(** [s.endswith(suffix)]. *)
Definition endswith (s suffix : string) : bool :=
  let n := String.length s in
  let m := String.length suffix in
  if (m <=? n)%nat then String.eqb (substring (n - m) m s) suffix else false.

(** The fields of a line of a table file: the line split at each comma. *)
Fixpoint split_comma (s : string) : list string :=
  match s with
  | EmptyString => [EmptyString]
  | String c rest =>
      if Ascii.eqb c ","
      then EmptyString :: split_comma rest
      else
        match split_comma rest with
        | f :: fs => String c f :: fs
        | [] => [String c EmptyString]
        end
  end.

Fixpoint has_comma (s : string) : bool :=
  match s with
  | EmptyString => false
  | String c rest => (Ascii.eqb c "," || has_comma rest)%bool
  end.

(** A character the table writer cannot put in a field as it is: the
    comma, the double quote (code 34), the line feed and the carriage
    return.  A field without them is written unquoted on one line. *)
Definition special (c : ascii) : bool :=
  let n := nat_of_ascii c in
  (Nat.eqb n 44 || Nat.eqb n 34 || Nat.eqb n 10 || Nat.eqb n 13)%bool.

Fixpoint has_special (s : string) : bool :=
  match s with
  | EmptyString => false
  | String c rest => (special c || has_special rest)%bool
  end.

Section Csv.

(** [float(text)] of the dialog, [None] when it raises [ValueError]. *)
Variable float_of_text : string -> option float.

(** The text the table writer prints for a float cell, and the float the
    table reader takes a field for, [None] when the field is not a
    number. *)
Variable cell : float -> string.
Variable number : string -> option float.

(** [pd.DataFrame({"Reference_X": rx, "Reference_Y": ry})]: the rows of the
    frame; columns of different lengths are refused with [ValueError]. *)
Definition DataFrame (rx ry : list float) : outcome (list (float * float)) :=
  if Nat.eqb (List.length rx) (List.length ry) then Ok (combine rx ry)
  else Raise ValueError.

(** [df.to_csv(path, index=False)], after the library's documentation: a
    header line with the two column labels, then one line per row, the
    fields separated by commas, no index column. *)
Definition to_csv (rows : list (float * float)) : list string :=
  "Reference_X,Reference_Y"
  :: map (fun r => (cell (fst r) ++ "," ++ cell (snd r))%string) rows.

(** What [save_csv] leaves on disk. *)
Definition export (cells : Cells) (path : string) (fs : Files) : outcome Files :=
  match save_csv float_of_text cells path with
  | ToCsv p rx ry =>
      match DataFrame rx ry with
      | Ok rows => Ok (write_file p (to_csv rows) fs)
      | Raise e => Raise e
      end
  | _ => Ok fs
  end.

(** The rows below the header, after the library's documentation: blank
    lines are skipped, every other line is a row of fields separated by
    commas.  The result is the first and the second column as lists of
    floats, [None] when a row has not exactly two fields or a field is not
    a number. *)
Fixpoint read_rows (lines : list string) : option (list float * list float) :=
  match lines with
  | [] => Some ([], [])
  | line :: rest =>
      if String.eqb line "" then read_rows rest
      else
        match split_comma line with
        | [a; b] =>
            match number a, number b, read_rows rest with
            | Some x, Some y, Some (xs, ys) => Some (x :: xs, y :: ys)
            | _, _, _ => None
            end
        | _ => None
        end
  end.

(** [df = pd.read_csv(path)] followed by [df.iloc[:, 0].tolist()] and
    [df.iloc[:, 1].tolist()]: the first line is the header and is not
    data. *)
Definition read_csv (lines : list string) : option (list float * list float) :=
  match lines with
  | [] => None
  | _ :: body => read_rows body
  end.

(** [MainWindow.open_file] for the path the file dialog returns.  A path
    ending in ".csv" is read as a table whose first two columns become the
    reference; a path with neither ending, as the empty path of a cancelled
    dialog, does nothing.  [None] is a call outside this model: a ".json"
    path, a missing file, or a file [read_csv] does not take for two
    columns of numbers. *)
Definition open_file (path : string) (fs : Files) : option (M unit) :=
  if endswith path ".csv" then
    match fs path with
    | Some lines =>
        match read_csv lines with
        | Some (xs, ys) => Some (LivePage.set_reference xs ys)
        | None => None
        end
    | None => None
    end
  else if endswith path ".json" then None
  else Some (ret tt).

End Csv.

(** A table writer and reader for whole numbers, to run the round trip
    on: a whole number n is printed as n followed by ".0" and read back
    from such a text. *)
Definition whole_value (f : float) : option Z :=
  match f with
  | S754_zero _ => Some 0
  | S754_finite s m e =>
      let n :=
        match e with
        | Z0 => Some (Z.pos m)
        | Zpos k => Some (Z.pos m * 2 ^ Z.pos k)
        | Zneg k =>
            if Z.pos m mod 2 ^ Z.pos k =? 0 then Some (Z.pos m / 2 ^ Z.pos k)
            else None
        end in
      match n with
      | Some v => Some (if s then - v else v)
      | None => None
      end
  | _ => None
  end.

Definition whole_cell (f : float) : string :=
  match whole_value f with
  | Some n => (str n ++ ".0")%string
  | None => "nan"
  end.

Definition whole_field (s : string) : option float :=
  if endswith s ".0"
  then whole_number (substring 0 (String.length s - 2) s)
  else None.

(** * Properties *)

(** Unfolds the monad of helpers, so that a run reads as plain state
    passing. *)
Ltac run_monad :=
  unfold bind, gets, lift, modify, ret, LivePage.update_table.

(** ** Register access *)

Lemma with_wire_same (w : World) : with_wire (wire w) w = w.
Proof. destruct w; reflexivity. Qed.

Lemma register_range (data : byte * byte) : 0 <= register data <= 65535.
Proof.
  unfold register.
  pose proof (Byte.to_N_bounded (fst data)) as Hhi.
  pose proof (Byte.to_N_bounded (snd data)) as Hlo.
  lia.
Qed.

Lemma encodable_range (a : Z) : encodable a = true <-> 0 <= a <= 65535.
Proof. unfold encodable. rewrite andb_true_iff, !Z.leb_le. tauto. Qed.

Lemma execute_cases {A : Type} (q : Request) (reply : World -> A) (w : World) :
  client.execute q reply w
  = if online (plc w) (wire w)
    then if encodable (address q)
         then (Ok (reply w), with_wire (wire w ++ [q]) w)
         else (Raise StructError, w)
    else (Raise ConnectionException, w).
Proof.
  unfold client.execute.
  destruct (online (plc w) (wire w)); [| reflexivity].
  destruct (encodable (address q)); reflexivity.
Qed.

Lemma polls_address (reg : RegisterRef) :
  Forall (fun q => is_read q /\ single_item q /\ address q = addr reg) (polls reg)
  /\ (List.length (polls reg) <= 1)%nat.
Proof.
  unfold polls.
  destruct (tag_in (type reg) ["D"; "C"; "T"]);
    [| destruct (tag_in (type reg) ["M"; "Y"]);
       [| destruct (String.eqb (type reg) "X") ] ];
    (split; [repeat constructor | cbn; lia]).
Qed.

(** What a read does, case by case. *)
Lemma read_plc_cases (reg : RegisterRef) (w : World) :
  read_plc reg w
  = if connected w then
      match polls reg with
      | [] => (Ok None, w)
      | _ :: _ =>
          if online (plc w) (wire w)
          then if encodable (addr reg)
               then (Ok (answer reg w), with_wire (wire w ++ polls reg) w)
               else (Raise StructError, w)
          else (Raise ConnectionException, w)
      end
    else (Ok None, w).
Proof.
  unfold read_plc, polls, answer, bind, gets, ret.
  destruct (connected w); cbn [negb]; [| reflexivity].
  destruct (tag_in (type reg) ["D"; "C"; "T"]);
    [| destruct (tag_in (type reg) ["M"; "Y"]);
       [| destruct (String.eqb (type reg) "X") ] ];
    try reflexivity;
    unfold client.read_holding_registers, client.read_coils,
      client.read_discrete_inputs;
    rewrite execute_cases; cbn [address];
    destruct (online (plc w) (wire w)); try reflexivity;
    destruct (encodable (addr reg)); reflexivity.
Qed.

(** A read either returns, with its request on the wire, or raises one of
    the two client exceptions with the world as it was. *)
Lemma read_plc_effect (reg : RegisterRef) (w : World) :
  (exists r,
      read_plc reg w = (Ok r, with_wire (wire w ++ sent w reg) w)
      /\ (connected w = false -> r = None))
  \/ (exists e,
        read_plc reg w = (Raise e, w)
        /\ connected w = true
        /\ (e = ConnectionException \/ e = StructError)).
Proof.
  rewrite read_plc_cases. unfold sent.
  destruct (connected w).
  - destruct (polls reg) as [| q l] eqn:Ep.
    + left. exists None. rewrite app_nil_r, with_wire_same.
      split; [reflexivity | discriminate].
    + destruct (online (plc w) (wire w)).
      * destruct (encodable (addr reg)).
        -- left. eexists. split; [reflexivity | discriminate].
        -- right. exists StructError. auto.
      * right. exists ConnectionException. auto.
  - left. exists None. rewrite app_nil_r, with_wire_same. now split.
Qed.

(** C4. While [connected] is false, [read_plc] returns [None] for every
    register entry and leaves the world as it was: nothing is sent on the
    link. *)
Theorem read_plc_disconnected (reg : RegisterRef) (w : World) :
  connected w = false ->
  read_plc reg w = (Ok None, w).
Proof.
  intros Hc. unfold read_plc, bind, gets, ret. now rewrite Hc.
Qed.

Lemma read_plc_disconnected_witness :
  read_plc (mkReg "D" 100) (startup false silent_plc)
  = (Ok None, startup false silent_plc)
  /\ wire (snd (read_plc (mkReg "D" 100) (startup false silent_plc))) = [].
Proof.
  split.
  - apply (read_plc_disconnected (mkReg "D" 100) (startup false silent_plc)).
    reflexivity.
  - reflexivity.
Defined.

(** C5. While connected, with the link up and the address an unsigned
    16-bit number, [read_plc] dispatches on the type tag.  Tags D, C and T
    send one request for a single holding register at the address and return
    the register word, an integer from 0 to 65535; tags M and Y send one
    request for a single coil and return its bit; tag X sends one request
    for a single discrete input and return its bit.  In each case an error
    reply gives [None], and the call returns rather than raises. *)
Theorem read_plc_dispatch (reg : RegisterRef) (w : World) :
  connected w = true ->
  online (plc w) (wire w) = true ->
  0 <= addr reg <= 65535 ->
  (type reg = "D" \/ type reg = "C" \/ type reg = "T" ->
   exists r,
     read_plc reg w
     = (Ok r, with_wire (wire w ++ [ReadHoldingRegisters (addr reg) 1 1]) w)
     /\ (holding (plc w) (wire w) (addr reg) = None -> r = None)
     /\ (forall data, holding (plc w) (wire w) (addr reg) = Some data ->
         exists n, r = Some (VInt n) /\ n = register data /\ 0 <= n <= 65535))
  /\ (type reg = "M" \/ type reg = "Y" ->
      exists r,
        read_plc reg w
        = (Ok r, with_wire (wire w ++ [ReadCoils (addr reg) 1 1]) w)
        /\ (coils (plc w) (wire w) (addr reg) = None -> r = None)
        /\ (forall bit, coils (plc w) (wire w) (addr reg) = Some bit ->
            r = Some (VBool bit)))
  /\ (type reg = "X" ->
      exists r,
        read_plc reg w
        = (Ok r, with_wire (wire w ++ [ReadDiscreteInputs (addr reg) 1 1]) w)
        /\ (inputs (plc w) (wire w) (addr reg) = None -> r = None)
        /\ (forall bit, inputs (plc w) (wire w) (addr reg) = Some bit ->
            r = Some (VBool bit))).
Proof.
  intros Hc Hon Ha. apply encodable_range in Ha.
  rewrite read_plc_cases, Hc, Hon, Ha. unfold polls, answer.
  repeat split.
  - intros Ht.
    assert (Hin : tag_in (type reg) ["D"; "C"; "T"] = true)
      by (destruct Ht as [-> | [-> | ->]]; reflexivity).
    rewrite Hin.
    eexists. split; [reflexivity |]. split.
    + now intros ->.
    + intros data ->. eexists. repeat split; apply register_range.
  - intros Ht.
    assert (Hin : tag_in (type reg) ["D"; "C"; "T"] = false
                  /\ tag_in (type reg) ["M"; "Y"] = true)
      by (destruct Ht as [-> | ->]; split; reflexivity).
    destruct Hin as [-> ->].
    eexists. split; [reflexivity |]. split.
    + now intros ->.
    + now intros bit ->.
  - intros ->. cbn.
    eexists. split; [reflexivity |]. split.
    + now intros ->.
    + now intros bit ->.
Qed.

Lemma read_plc_dispatch_witness :
  read_plc (mkReg "D" 100) (startup true bench_plc)
  = (Ok (Some (VInt 500)),
     with_wire [ReadHoldingRegisters 100 1 1] (startup true bench_plc))
  /\ read_plc (mkReg "M" 12) (startup true bench_plc)
     = (Ok (Some (VBool true)),
        with_wire [ReadCoils 12 1 1] (startup true bench_plc))
  /\ read_plc (mkReg "X" 3) (startup true bench_plc)
     = (Ok None, with_wire [ReadDiscreteInputs 3 1 1] (startup true bench_plc)).
Proof.
  assert (R1 : 0 <= 100 <= 65535) by lia.
  assert (R2 : 0 <= 12 <= 65535) by lia.
  assert (R3 : 0 <= 3 <= 65535) by lia.
  pose proof (read_plc_dispatch (mkReg "D" 100) (startup true bench_plc)
                eq_refl eq_refl R1) as (HD & _ & _).
  pose proof (read_plc_dispatch (mkReg "M" 12) (startup true bench_plc)
                eq_refl eq_refl R2) as (_ & HM & _).
  pose proof (read_plc_dispatch (mkReg "X" 3) (startup true bench_plc)
                eq_refl eq_refl R3) as (_ & _ & HX).
  destruct (HD (or_introl eq_refl)) as (r1 & E1 & _ & V1).
  destruct (HM (or_introl eq_refl)) as (r2 & E2 & _ & V2).
  destruct (HX eq_refl) as (r3 & E3 & N3 & _).
  destruct (V1 _ eq_refl) as (n & -> & -> & _).
  rewrite (V2 _ eq_refl) in E2. rewrite (N3 eq_refl) in E3.
  split; [exact E1 | split; [exact E2 | exact E3]].
Defined.

(** C8. [write_plc_bit] writes [True] to the coil at the entry's address
    when connected and the tag is a coil tag (M or Y), the link being up and
    the address an unsigned 16-bit number; for any other tag it sends
    nothing, and when disconnected it sends nothing whatever the entry.
    Whatever the entry and the link, the only thing it can ever put on the
    wire is that one write to the entry's own address. *)
Theorem write_plc_bit_only_coils (reg : RegisterRef) (w : World) :
  (connected w = true ->
   online (plc w) (wire w) = true ->
   0 <= addr reg <= 65535 ->
   type reg = "M" \/ type reg = "Y" ->
   write_plc_bit reg w
   = (Ok tt, with_wire (wire w ++ [WriteCoil (addr reg) true 1]) w))
  /\ (type reg <> "M" -> type reg <> "Y" -> write_plc_bit reg w = (Ok tt, w))
  /\ (connected w = false -> write_plc_bit reg w = (Ok tt, w))
  /\ (snd (write_plc_bit reg w) = w
      \/ (snd (write_plc_bit reg w)
          = with_wire (wire w ++ [WriteCoil (addr reg) true 1]) w
          /\ connected w = true
          /\ (type reg = "M" \/ type reg = "Y"))).
Proof.
  unfold write_plc_bit, bind, gets, ret, client.write_coil.
  split; [| split; [| split]].
  - intros -> Hon Ha Ht. apply encodable_range in Ha.
    assert (Hin : tag_in (type reg) ["M"; "Y"] = true)
      by (destruct Ht as [-> | ->]; reflexivity).
    rewrite Hin. cbn [andb]. rewrite execute_cases, Hon. cbn [address].
    now rewrite Ha.
  - intros HM HY.
    assert (Hin : tag_in (type reg) ["M"; "Y"] = false).
    { unfold tag_in, existsb.
      apply String.eqb_neq in HM, HY. now rewrite HM, HY. }
    rewrite Hin, andb_false_r. reflexivity.
  - now intros ->.
  - destruct (connected w); cbn [andb]; [| now left].
    destruct (tag_in (type reg) ["M"; "Y"]) eqn:Hin; [| now left].
    cbn iota. rewrite execute_cases. cbn [address].
    destruct (online (plc w) (wire w)); [| now left].
    destruct (encodable (addr reg)); [| now left].
    right. split; [reflexivity |]. split; [reflexivity |].
    unfold tag_in in Hin. cbn [existsb] in Hin.
    rewrite orb_false_r in Hin. apply orb_true_iff in Hin.
    destruct Hin as [H | H]; apply String.eqb_eq in H; auto.
Qed.

Lemma write_plc_bit_only_coils_witness :
  write_plc_bit (mkReg "M" 30) (startup true silent_plc)
  = (Ok tt, with_wire [WriteCoil 30 true 1] (startup true silent_plc))
  /\ write_plc_bit (mkReg "D" 100) (startup true silent_plc)
     = (Ok tt, startup true silent_plc)
  /\ write_plc_bit (mkReg "M" 30) (startup false silent_plc)
     = (Ok tt, startup false silent_plc).
Proof.
  pose proof (write_plc_bit_only_coils (mkReg "M" 30) (startup true silent_plc))
    as (H1 & _ & _).
  pose proof (write_plc_bit_only_coils (mkReg "D" 100) (startup true silent_plc))
    as (_ & H2 & _).
  pose proof (write_plc_bit_only_coils (mkReg "M" 30) (startup false silent_plc))
    as (_ & _ & H3 & _).
  split; [| split].
  - apply H1; [reflexivity | reflexivity | cbn; lia | left; reflexivity].
  - apply H2; discriminate.
  - apply H3; reflexivity.
Defined.

(** ** The sampler *)

Lemma update_plot_cases (v : World) :
  LivePage.update_plot v
  = (if plottable (live v) then Ok tt else Raise ValueError, v).
Proof.
  unfold LivePage.update_plot, LivePage.plot, plottable, bind, gets, ret, lift.
  destruct (LivePage.nonempty (ref_x (live v)));
    [destruct (Nat.eqb (List.length (ref_x (live v)))
                       (List.length (ref_y (live v)))) |];
    cbn [andb]; try reflexivity;
    destruct (LivePage.nonempty (act_x (live v)));
    try reflexivity;
    destruct (Nat.eqb (List.length (act_x (live v)))
                      (List.length (act_y (live v)))); reflexivity.
Qed.

Lemma truediv_cases (a b : Z) :
  (b = 0 /\ truediv a b = Raise ZeroDivisionError)
  \/ (b <> 0 /\ truediv a b = Ok (SFdiv prec emax (of_int a) (of_int b))).
Proof.
  unfold truediv. destruct (b =? 0) eqn:E.
  - left. apply Z.eqb_eq in E. now split.
  - right. apply Z.eqb_neq in E. now split.
Qed.

(** The statements of a tick below its reads, case by case. *)
Lemma after_reads_none (xr yr rn : option value) (v : World) :
  xr = None \/ yr = None ->
  LivePage.after_reads xr yr rn v = (Ok tt, v).
Proof.
  unfold LivePage.after_reads.
  intros [-> | ->]; [| destruct xr]; reflexivity.
Qed.

Lemma after_reads_zero (x y : value) (rn : option value) (v : World) :
  x_ppr (CONFIG v) = 0 \/ y_ppr (CONFIG v) = 0 ->
  LivePage.after_reads (Some x) (Some y) rn v = (Raise ZeroDivisionError, v).
Proof.
  intros H. unfold LivePage.after_reads, truediv. run_monad.
  destruct H as [-> | Hy]; cbn [Z.eqb]; [reflexivity |].
  rewrite Hy. cbn [Z.eqb]. destruct (x_ppr (CONFIG v) =? 0); reflexivity.
Qed.

Lemma after_reads_sampled (x y : value) (rn : option value) (v : World)
    (ax ay : float) :
  truediv (as_int x) (x_ppr (CONFIG v)) = Ok ax ->
  truediv (as_int y) (y_ppr (CONFIG v)) = Ok ay ->
  LivePage.after_reads (Some x) (Some y) rn v
  = (if plottable (recorded ax ay (run_label rn) (live v))
     then Ok tt else Raise ValueError,
     with_live (redrawn (recorded ax ay (run_label rn) (live v))) v).
Proof.
  intros Hx Hy. unfold LivePage.after_reads. run_monad.
  rewrite Hx. cbn [CONFIG with_live]. rewrite Hy.
  cbn [CONFIG with_live live].
  rewrite update_plot_cases. cbn [live with_live].
  unfold redrawn, recorded, run_label.
  destruct (plottable _); destruct v as [c cn d l p]; reflexivity.
Qed.

Lemma tick_unfold (w : World) :
  LivePage.read_plc w
  = match x_read w with
    | (Raise e, w1) => (Raise e, w1)
    | (Ok xr, _) =>
        match y_read w with
        | (Raise e, w2) => (Raise e, w2)
        | (Ok yr, _) =>
            match run_read w with
            | (Raise e, w3) => (Raise e, w3)
            | (Ok rn, w3) => LivePage.after_reads xr yr rn w3
            end
        end
    end.
Proof.
  unfold run_read, y_read, x_read, LivePage.read_plc, bind, gets.
  destruct (read_plc (x_encoder (CONFIG w)) w) as [[xr | e] w1];
    cbn [snd]; [| reflexivity].
  destruct (read_plc (y_encoder (CONFIG w1)) w1) as [[yr | e] w2];
    cbn [snd]; [| reflexivity].
  destruct (read_plc (run_bit (CONFIG w2)) w2) as [[rn | e] w3]; reflexivity.
Qed.

Lemma sent_shape (w : World) (reg : RegisterRef) :
  Forall (fun q => is_read q /\ single_item q /\ address q = addr reg) (sent w reg)
  /\ (List.length (sent w reg) <= 1)%nat.
Proof.
  unfold sent. destruct (connected w).
  - apply polls_address.
  - split; [constructor | cbn; lia].
Qed.

Lemma Forall_reads (reg : RegisterRef) (l : list Request) :
  Forall (fun q => is_read q /\ single_item q /\ address q = addr reg) l ->
  Forall (fun q => is_read q /\ single_item q) l.
Proof. intros H. eapply Forall_impl; [| exact H]. cbn. tauto. Qed.

(** A tick, read by read: either the three reads return and the tick goes
    on with what they returned, the polls on the wire; or one of them raises
    a client exception, which ends the tick with nothing but earlier polls
    on the wire. *)
Lemma tick_run (w : World) :
  (exists xr yr rn,
      reads_return w xr yr rn
      /\ (connected w = false -> xr = None)
      /\ LivePage.read_plc w
         = LivePage.after_reads xr yr rn
             (with_wire (wire w ++ tick_polls w) w))
  \/ (exists e l,
        LivePage.read_plc w = (Raise e, with_wire (wire w ++ l) w)
        /\ connected w = true
        /\ (e = ConnectionException \/ e = StructError)
        /\ Forall (fun q => is_read q /\ single_item q) l
        /\ (List.length l <= 2)%nat
        /\ (forall xr yr rn, ~ reads_return w xr yr rn)).
Proof.
  rewrite tick_unfold. unfold reads_return, run_read, y_read, x_read.
  destruct (sent_shape w (x_encoder (CONFIG w))) as (Fx & Lx).
  destruct (sent_shape w (y_encoder (CONFIG w))) as (Fy & Ly).
  apply Forall_reads in Fx. apply Forall_reads in Fy.
  destruct (read_plc_effect (x_encoder (CONFIG w)) w)
    as [(xr & E1 & D1) | (e & E1 & Hc & He)]; rewrite E1; cbn [fst snd].
  2:{ right. exists e, []. rewrite app_nil_r, with_wire_same.
      split; [reflexivity |]. split; [exact Hc |]. split; [exact He |].
      split; [constructor |]. split; [cbn; lia |].
      intros xr yr rn (H & _). discriminate H. }
  set (w1 := with_wire (wire w ++ sent w (x_encoder (CONFIG w))) w) in *.
  change (CONFIG w1) with (CONFIG w).
  destruct (read_plc_effect (y_encoder (CONFIG w)) w1)
    as [(yr & E2 & _) | (e & E2 & Hc & He)]; rewrite E2; cbn [fst snd].
  2:{ right. exists e, (sent w (x_encoder (CONFIG w))).
      split; [reflexivity |]. split; [exact Hc |]. split; [exact He |].
      split; [exact Fx |]. split; [lia |].
      intros xr' yr' rn' (_ & H & _). discriminate H. }
  set (w2 := with_wire (wire w1 ++ sent w1 (y_encoder (CONFIG w))) w1) in *.
  change (CONFIG w2) with (CONFIG w).
  assert (Ew2 : w2 = with_wire (wire w ++ sent w (x_encoder (CONFIG w))
                                  ++ sent w (y_encoder (CONFIG w))) w).
  { subst w2 w1. unfold with_wire, sent.
    cbn [wire connected CONFIG plc live]. now rewrite <- app_assoc. }
  destruct (read_plc_effect (run_bit (CONFIG w)) w2)
    as [(rn & E3 & _) | (e & E3 & Hc & He)]; rewrite E3; cbn [fst snd].
  2:{ right. exists e, (sent w (x_encoder (CONFIG w))
                         ++ sent w (y_encoder (CONFIG w))).
      rewrite Ew2.
      split; [reflexivity |]. split; [exact Hc |]. split; [exact He |].
      split; [apply Forall_app; now split |].
      split; [rewrite length_app; lia |].
      intros xr' yr' rn' (_ & _ & H). discriminate H. }
  left. exists xr, yr, rn.
  split; [repeat split |]. split; [exact D1 |].
  f_equal. rewrite Ew2. unfold tick_polls, with_wire, sent.
  cbn [wire connected CONFIG plc live]. now rewrite <- !app_assoc.
Qed.

Lemma reads_return_unique (w : World) (xr yr rn xr' yr' rn' : option value) :
  reads_return w xr yr rn -> reads_return w xr' yr' rn' ->
  xr = xr' /\ yr = yr' /\ rn = rn'.
Proof.
  intros (H1 & H2 & H3) (G1 & G2 & G3).
  rewrite H1 in G1. rewrite H2 in G2. rewrite H3 in G3.
  injection G1 as <-. injection G2 as <-. injection G3 as <-. auto.
Qed.

(** A tick that raises in a read changes nothing on the live page. *)
Lemma live_with_wire (l : list Request) (w : World) : live (with_wire l w) = live w.
Proof. reflexivity. Qed.

(** A tick during which the link goes down after the x-encoder read
    returned [None]: the read of the y encoder raises and the exception
    leaves the tick. *)
Lemma tick_raises_after_none :
  fst (x_read (startup true dropping_plc)) = Ok None
  /\ fst (LivePage.read_plc (startup true dropping_plc))
     = Raise ConnectionException
  /\ act_x (live (snd (LivePage.read_plc (startup true dropping_plc)))) = []
  /\ act_y (live (snd (LivePage.read_plc (startup true dropping_plc)))) = [].
Proof. repeat split. Qed.

(** C1, as the code has it. When the x-encoder read or the y-encoder read of
    a tick returns [None], the live page is as it was before the tick: the
    two histories keep their length and contents.  The tick returns without
    raising provided its three reads all return; the only errors that can
    leave it are the exceptions the client raises inside a read, for a link
    that is down or an address that does not fit a frame. *)
Theorem tick_abandoned (w : World) :
  fst (x_read w) = Ok None \/ fst (y_read w) = Ok None ->
  act_x (live (snd (LivePage.read_plc w))) = act_x (live w)
  /\ act_y (live (snd (LivePage.read_plc w))) = act_y (live w)
  /\ live (snd (LivePage.read_plc w)) = live w
  /\ ((exists xr yr rn, reads_return w xr yr rn) ->
      fst (LivePage.read_plc w) = Ok tt)
  /\ (fst (LivePage.read_plc w) = Ok tt
      \/ fst (LivePage.read_plc w) = Raise ConnectionException
      \/ fst (LivePage.read_plc w) = Raise StructError).
Proof.
  intros H.
  destruct (tick_run w)
    as [(xr & yr & rn & (E1 & E2 & E3) & _ & E)
       | (e & l & E & _ & He & _ & _ & Hno)]; rewrite E.
  - rewrite E1, E2 in H. cbn [fst] in H.
    assert (Hn : xr = None \/ yr = None)
      by (destruct H as [H | H]; injection H; auto).
    rewrite (after_reads_none xr yr rn _ Hn). cbn [fst snd].
    rewrite live_with_wire. repeat split; auto.
  - cbn [fst snd]. rewrite live_with_wire. repeat split.
    + intros (xr & yr & rn & Hr). destruct (Hno xr yr rn Hr).
    + destruct He as [-> | ->]; auto.
Qed.

Lemma tick_abandoned_witness :
  fst (LivePage.read_plc (startup true silent_plc)) = Ok tt
  /\ act_x (live (snd (LivePage.read_plc (startup true silent_plc)))) = []
  /\ act_y (live (snd (LivePage.read_plc (startup true silent_plc)))) = []
  /\ wire (snd (LivePage.read_plc (startup true silent_plc)))
     = [ReadHoldingRegisters 100 1 1; ReadHoldingRegisters 102 1 1;
        ReadCoils 12 1 1].
Proof.
  destruct (tick_abandoned (startup true silent_plc) (or_introl eq_refl))
    as (H2 & H3 & _ & H1 & _).
  split; [| split; [exact H2 | split; [exact H3 | reflexivity]]].
  apply H1. exists None, None, None. repeat split.
Defined.

(** C2. When both encoder reads of a tick give raw values, the sample the
    tick appends is the pair of float quotients raw_x / x_ppr and
    raw_y / y_ppr: the tick appends exactly that pair whenever its run-bit
    read returns and the scale factors are not zero, and whatever happens
    it appends either nothing or that pair.  With both scale factors 1000
    and raw reads 500 and 250 the appended values are the floats 0.5 and
    0.25, exactly one half and one quarter.  (With a zero scale factor the
    division raises and nothing is appended; the tick returns without
    raising when moreover the page can be plotted.) *)
Theorem tick_appends_scaled (w : World) (x y : value) :
  fst (x_read w) = Ok (Some x) ->
  fst (y_read w) = Ok (Some y) ->
  (forall rn,
      fst (run_read w) = Ok rn ->
      x_ppr (CONFIG w) <> 0 ->
      y_ppr (CONFIG w) <> 0 ->
      exists ax ay,
        truediv (as_int x) (x_ppr (CONFIG w)) = Ok ax
        /\ truediv (as_int y) (y_ppr (CONFIG w)) = Ok ay
        /\ act_x (live (snd (LivePage.read_plc w))) = act_x (live w) ++ [ax]
        /\ act_y (live (snd (LivePage.read_plc w))) = act_y (live w) ++ [ay]
        /\ (plottable (recorded ax ay (run_label rn) (live w)) = true ->
            fst (LivePage.read_plc w) = Ok tt))
  /\ (forall rn,
        fst (run_read w) = Ok rn ->
        x_ppr (CONFIG w) = 1000 ->
        y_ppr (CONFIG w) = 1000 ->
        as_int x = 500 ->
        as_int y = 250 ->
        act_x (live (snd (LivePage.read_plc w))) = act_x (live w) ++ [decimal 5 10]
        /\ act_y (live (snd (LivePage.read_plc w)))
           = act_y (live w) ++ [decimal 25 100]
        /\ (exists q, to_Q (decimal 5 10) = Some q /\ (q == 1 # 2)%Q)
        /\ (exists q, to_Q (decimal 25 100) = Some q /\ (q == 1 # 4)%Q))
  /\ (forall rn,
        fst (run_read w) = Ok rn ->
        x_ppr (CONFIG w) = 0 \/ y_ppr (CONFIG w) = 0 ->
        fst (LivePage.read_plc w) = Raise ZeroDivisionError
        /\ live (snd (LivePage.read_plc w)) = live w)
  /\ ((act_x (live (snd (LivePage.read_plc w))) = act_x (live w)
       /\ act_y (live (snd (LivePage.read_plc w))) = act_y (live w))
      \/ (exists ax ay,
            truediv (as_int x) (x_ppr (CONFIG w)) = Ok ax
            /\ truediv (as_int y) (y_ppr (CONFIG w)) = Ok ay
            /\ act_x (live (snd (LivePage.read_plc w))) = act_x (live w) ++ [ax]
            /\ act_y (live (snd (LivePage.read_plc w)))
               = act_y (live w) ++ [ay])).
Proof.
  intros Hx Hy.
  assert (Hlive : forall ax ay r p,
             act_x (redrawn (recorded ax ay r p)) = act_x p ++ [ax]
             /\ act_y (redrawn (recorded ax ay r p)) = act_y p ++ [ay]).
  { intros ax ay r p. unfold redrawn.
    destruct (plottable (recorded ax ay r p)); split; reflexivity. }
  destruct (tick_run w)
    as [(xr & yr & rn & (E1 & E2 & E3) & _ & E)
       | (e & l & E & _ & He & _ & _ & Hno)]; rewrite E.
  - rewrite Hx in E1. rewrite Hy in E2.
    injection E1 as <-. injection E2 as <-.
    set (v := with_wire (wire w ++ tick_polls w) w).
    change (x_ppr (CONFIG w)) with (x_ppr (CONFIG v)).
    change (y_ppr (CONFIG w)) with (y_ppr (CONFIG v)).
    change (live w) with (live v).
    destruct (truediv_cases (as_int x) (x_ppr (CONFIG v))) as [(Zx & Tx) | (Nx & Tx)];
      [| destruct (truediv_cases (as_int y) (y_ppr (CONFIG v)))
           as [(Zy & Ty) | (Ny & Ty)]].
    + rewrite (after_reads_zero x y rn v (or_introl Zx)). cbn [fst snd].
      split; [| split; [| split]].
      * intros rn' _ Px _. congruence.
      * intros rn' _ Px _ _ _. rewrite Px in Zx. discriminate Zx.
      * intros rn' _ _. split; reflexivity.
      * left. split; reflexivity.
    + rewrite (after_reads_zero x y rn v (or_intror Zy)). cbn [fst snd].
      split; [| split; [| split]].
      * intros rn' _ _ Py. congruence.
      * intros rn' _ _ Py _ _. rewrite Py in Zy. discriminate Zy.
      * intros rn' _ _. split; reflexivity.
      * left. split; reflexivity.
    + rewrite (after_reads_sampled x y rn v _ _ Tx Ty). cbn [fst snd live with_live].
      destruct (Hlive (SFdiv prec emax (of_int (as_int x)) (of_int (x_ppr (CONFIG v))))
                  (SFdiv prec emax (of_int (as_int y)) (of_int (y_ppr (CONFIG v))))
                  (run_label rn) (live v)) as (Lx & Ly).
      split; [| split; [| split]].
      * intros rn' Hrn _ _. rewrite Hrn in E3. injection E3 as <-.
        do 2 eexists. split; [exact Tx |]. split; [exact Ty |].
        split; [exact Lx |]. split; [exact Ly |].
        now intros ->.
      * intros rn' _ Px Py Ax Ay. rewrite Lx, Ly, Px, Py, Ax, Ay.
        split; [reflexivity |]. split; [reflexivity |].
        split; eexists; (split; [reflexivity | reflexivity]).
      * intros rn' _ [Z | Z]; congruence.
      * right. do 2 eexists. split; [exact Tx |]. split; [exact Ty |].
        split; [exact Lx | exact Ly].
  - cbn [fst snd]. rewrite live_with_wire.
    assert (Hnone : forall rn, fst (run_read w) = Ok rn -> False).
    { intros rn Hrn. apply (Hno (Some x) (Some y) rn). now repeat split. }
    split; [| split; [| split]].
    + intros rn Hrn. destruct (Hnone rn Hrn).
    + intros rn Hrn. destruct (Hnone rn Hrn).
    + intros rn Hrn. destruct (Hnone rn Hrn).
    + now left.
Qed.

Lemma tick_appends_scaled_witness :
  fst (LivePage.read_plc (startup true bench_plc)) = Ok tt
  /\ act_x (live (snd (LivePage.read_plc (startup true bench_plc))))
     = [decimal 5 10]
  /\ act_y (live (snd (LivePage.read_plc (startup true bench_plc))))
     = [decimal 25 100].
Proof.
  destruct (tick_appends_scaled (startup true bench_plc) (VInt 500) (VInt 250)
              eq_refl eq_refl) as (Hgen & Hsc & _).
  destruct (Hgen (Some (VBool true)) eq_refl)
    as (ax & ay & Tx & Ty & _ & _ & Hok); [discriminate .. |].
  destruct (Hsc (Some (VBool true)) eq_refl eq_refl eq_refl eq_refl eq_refl)
    as (Hax & Hay & _ & _).
  split; [| split; [exact Hax | exact Hay]].
  apply Hok. injection Tx as <-. injection Ty as <-. reflexivity.
Defined.

(** The live page after a tick: it changes exactly when the three reads
    return, both encoder reads with a value, and no scale factor is zero;
    it then holds the recorded sample, redrawn if it can be plotted. *)
Lemma tick_live (w : World) :
  (live (snd (LivePage.read_plc w)) = live w
   /\ ~ (exists x y rn,
           reads_return w (Some x) (Some y) rn
           /\ x_ppr (CONFIG w) <> 0 /\ y_ppr (CONFIG w) <> 0))
  \/ (exists x y rn ax ay,
        reads_return w (Some x) (Some y) rn
        /\ x_ppr (CONFIG w) <> 0
        /\ y_ppr (CONFIG w) <> 0
        /\ connected w = true
        /\ truediv (as_int x) (x_ppr (CONFIG w)) = Ok ax
        /\ truediv (as_int y) (y_ppr (CONFIG w)) = Ok ay
        /\ live (snd (LivePage.read_plc w))
           = redrawn (recorded ax ay (run_label rn) (live w))
        /\ fst (LivePage.read_plc w)
           = if plottable (recorded ax ay (run_label rn) (live w))
             then Ok tt else Raise ValueError).
Proof.
  destruct (tick_run w)
    as [(xr & yr & rn & Hr & Hd & E) | (e & l & E & _ & _ & _ & _ & Hno)];
    rewrite E.
  - set (v := with_wire (wire w ++ tick_polls w) w).
    destruct xr as [x |]; [destruct yr as [y |] |].
    + destruct (truediv_cases (as_int x) (x_ppr (CONFIG v)))
        as [(Zx & Tx) | (Nx & Tx)];
        [| destruct (truediv_cases (as_int y) (y_ppr (CONFIG v)))
             as [(Zy & Ty) | (Ny & Ty)]].
      * left. rewrite (after_reads_zero x y rn v (or_introl Zx)).
        split; [reflexivity |]. intros (x' & y' & rn' & _ & Px & _).
        apply Px. exact Zx.
      * left. rewrite (after_reads_zero x y rn v (or_intror Zy)).
        split; [reflexivity |]. intros (x' & y' & rn' & _ & _ & Py).
        apply Py. exact Zy.
      * right. exists x, y, rn. do 2 eexists.
        rewrite (after_reads_sampled x y rn v _ _ Tx Ty).
        split; [exact Hr |]. split; [exact Nx |]. split; [exact Ny |].
        split; [| split; [exact Tx | split; [exact Ty | split; reflexivity]]].
        destruct (connected w); [reflexivity |].
        discriminate (Hd eq_refl).
    + left. rewrite (after_reads_none (Some x) None rn v (or_intror eq_refl)).
      split; [reflexivity |]. intros (x' & y' & rn' & Hr' & _).
      destruct (reads_return_unique _ _ _ _ _ _ _ Hr Hr') as (_ & H & _).
      discriminate H.
    + left. rewrite (after_reads_none None yr rn v (or_introl eq_refl)).
      split; [reflexivity |]. intros (x' & y' & rn' & Hr' & _).
      destruct (reads_return_unique _ _ _ _ _ _ _ Hr Hr') as (H & _).
      discriminate H.
  - left. split; [reflexivity |].
    intros (x & y & rn & Hr & _). exact (Hno _ _ _ Hr).
Qed.

Lemma redrawn_lists (p : LivePageObj) :
  ref_x (redrawn p) = ref_x p /\ ref_y (redrawn p) = ref_y p
  /\ act_x (redrawn p) = act_x p /\ act_y (redrawn p) = act_y p
  /\ xv (redrawn p) = xv p /\ yv (redrawn p) = yv p /\ run (redrawn p) = run p.
Proof. unfold redrawn. destruct (plottable p); repeat split. Qed.

Lemma tick_history (w : World) :
  (act_x (live (snd (LivePage.read_plc w))) = act_x (live w)
   /\ act_y (live (snd (LivePage.read_plc w))) = act_y (live w))
  \/ (exists ax ay,
        act_x (live (snd (LivePage.read_plc w))) = act_x (live w) ++ [ax]
        /\ act_y (live (snd (LivePage.read_plc w))) = act_y (live w) ++ [ay]).
Proof.
  destruct (tick_live w)
    as [(E & _) | (x & y & rn & ax & ay & _ & _ & _ & _ & _ & _ & E & _)];
    rewrite E.
  - left. now split.
  - right. exists ax, ay.
    destruct (redrawn_lists (recorded ax ay (run_label rn) (live w)))
      as (_ & _ & -> & -> & _).
    split; reflexivity.
Qed.

Lemma set_reference_cases (rx ry : list float) (w : World) :
  LivePage.set_reference rx ry w
  = (if plottable (LivePage.set_ref rx ry (live w))
     then Ok tt else Raise ValueError,
     with_live (redrawn (LivePage.set_ref rx ry (live w))) w).
Proof.
  unfold LivePage.set_reference. run_monad.
  rewrite update_plot_cases. cbn [live with_live]. unfold redrawn.
  destruct (plottable _); destruct w as [c cn d l p]; reflexivity.
Qed.

Lemma save_keeps_live (xp yp : string) (w : World) :
  live (snd (MoreSettingsPage.save xp yp w)) = live w.
Proof.
  unfold MoreSettingsPage.save, bind, lift, modify.
  destruct (int xp); [| reflexivity]. destruct (int yp); reflexivity.
Qed.

Lemma write_plc_bit_keeps_live (reg : RegisterRef) (w : World) :
  live (snd (write_plc_bit reg w)) = live w.
Proof.
  unfold write_plc_bit, bind, gets, ret, client.write_coil.
  destruct (connected w && tag_in (type reg) ["M"; "Y"])%bool; [| reflexivity].
  rewrite execute_cases.
  destruct (online (plc w) (wire w)); [| reflexivity].
  destruct (encodable _); reflexivity.
Qed.

Lemma step_aligned (w : World) (e : Event) : aligned w -> aligned (step w e).
Proof.
  unfold aligned, step. intros H. destruct e as [| rx ry | xp yp | reg]; cbn [handle].
  - destruct (tick_history w) as [[-> ->] | (ax & ay & -> & ->)].
    + exact H.
    + rewrite !length_app, H. reflexivity.
  - rewrite set_reference_cases. cbn [snd live with_live].
    destruct (redrawn_lists (LivePage.set_ref rx ry (live w)))
      as (_ & _ & -> & -> & _).
    exact H.
  - now rewrite save_keeps_live.
  - now rewrite write_plc_bit_keeps_live.
Qed.

Lemma run_events_aligned (es : list Event) :
  forall w, aligned w -> aligned (run_events w es).
Proof.
  unfold run_events.
  induction es as [| e es IH]; intros w H; cbn [fold_left].
  - exact H.
  - apply IH, step_aligned, H.
Qed.

(** C10. A tick keeps the two histories equally long.  An abandoned tick,
    one of whose encoder reads returned [None], appends to neither.  A
    successful tick, whose three reads return with both encoder values
    while no scale factor is zero, appends exactly one value to each, at the
    same position when the histories were equally long; and a tick that
    changes a history at all is a successful one.  So in every world the
    application reaches from its start, whatever the events, the X history
    and the Y history have the same length. *)
Theorem histories_aligned :
  (forall w,
      (act_x (live (step w Tick)) = act_x (live w)
       /\ act_y (live (step w Tick)) = act_y (live w))
      \/ (exists ax ay,
            act_x (live (step w Tick)) = act_x (live w) ++ [ax]
            /\ act_y (live (step w Tick)) = act_y (live w) ++ [ay]))
  /\ (forall w,
         List.length (act_x (live w)) = List.length (act_y (live w)) ->
         List.length (act_x (live (step w Tick)))
         = List.length (act_y (live (step w Tick))))
  /\ (forall c d es,
         List.length (act_x (live (run_events (startup c d) es)))
         = List.length (act_y (live (run_events (startup c d) es))))
  /\ (forall w,
         fst (x_read w) = Ok None \/ fst (y_read w) = Ok None ->
         act_x (live (step w Tick)) = act_x (live w)
         /\ act_y (live (step w Tick)) = act_y (live w))
  /\ (forall w x y rn,
         reads_return w (Some x) (Some y) rn ->
         x_ppr (CONFIG w) <> 0 ->
         y_ppr (CONFIG w) <> 0 ->
         exists ax ay,
           act_x (live (step w Tick)) = act_x (live w) ++ [ax]
           /\ act_y (live (step w Tick)) = act_y (live w) ++ [ay]
           /\ (List.length (act_x (live w)) = List.length (act_y (live w)) ->
               nth_error (act_x (live (step w Tick)))
                 (List.length (act_x (live w))) = Some ax
               /\ nth_error (act_y (live (step w Tick)))
                    (List.length (act_x (live w))) = Some ay))
  /\ (forall w,
         act_x (live (step w Tick)) <> act_x (live w)
         \/ act_y (live (step w Tick)) <> act_y (live w) ->
         exists x y rn,
           reads_return w (Some x) (Some y) rn
           /\ x_ppr (CONFIG w) <> 0 /\ y_ppr (CONFIG w) <> 0).
Proof.
  split; [| split; [| split; [| split; [| split]]]].
  - intros w. apply tick_history.
  - intros w H. apply (step_aligned w Tick H).
  - intros c d es. apply (run_events_aligned es (startup c d)). reflexivity.
  - intros w H. unfold step. cbn [handle].
    destruct (tick_live w)
      as [(E & _) | (x & y & rn & ax & ay & (E1 & E2 & _) & _)].
    + rewrite E. now split.
    + rewrite E1, E2 in H. destruct H as [H | H]; discriminate H.
  - intros w x y rn Hr Px Py. unfold step. cbn [handle].
    destruct (tick_live w)
      as [(_ & Hn) | (x' & y' & rn' & ax & ay & _ & _ & _ & _ & _ & _ & E & _)].
    + exfalso. apply Hn. now exists x, y, rn.
    + rewrite E. exists ax, ay.
      destruct (redrawn_lists (recorded ax ay (run_label rn') (live w)))
        as (_ & _ & -> & -> & _).
      cbn [recorded act_x act_y LivePage.set_labels LivePage.append_act_y
             LivePage.append_act_x].
      split; [reflexivity |]. split; [reflexivity |].
      intros Hl. split.
      * rewrite nth_error_app2 by lia. now rewrite Nat.sub_diag.
      * rewrite Hl, nth_error_app2 by lia. now rewrite Nat.sub_diag.
  - intros w H. unfold step in H. cbn [handle] in H.
    destruct (tick_live w)
      as [(E & _) | (x & y & rn & ax & ay & Hr & Px & Py & _)].
    + rewrite E in H. destruct H as [H | H]; now destruct H.
    + now exists x, y, rn.
Qed.

Lemma histories_aligned_witness :
  act_x (live (step (startup true bench_plc) Tick)) = [decimal 5 10]
  /\ act_y (live (step (startup true bench_plc) Tick)) = [decimal 25 100]
  /\ act_x (live (step (startup true silent_plc) Tick)) = []
  /\ List.length (act_y (live (step (startup true bench_plc) Tick))) = 1%nat.
Proof.
  destruct histories_aligned as (_ & Hstep & _ & Hab & Hok & _).
  pose proof (Hstep (startup true bench_plc) eq_refl) as H.
  destruct (Hab (startup true silent_plc) (or_introl eq_refl)) as (Ha & _).
  destruct (Hok (startup true bench_plc) (VInt 500) (VInt 250)
              (Some (VBool true))) as (ax & ay & Ex & Ey & _).
  - repeat split.
  - discriminate.
  - discriminate.
  - split; [reflexivity | split; [reflexivity | split; [exact Ha |]]].
    rewrite <- H. reflexivity.
Defined.

(** ** The deviation table *)

Lemma item_Some (l : list float) (i : nat) (v : float) :
  nth_error l i = Some v -> LivePage.item l i = Num v.
Proof.
  intros H. unfold LivePage.item.
  assert (Hlt : (i < List.length l)%nat)
    by (apply nth_error_Some; congruence).
  apply Nat.ltb_lt in Hlt. rewrite Hlt.
  now rewrite (nth_error_nth l i _ H).
Qed.

Lemma item_Blank (l : list float) (i : nat) :
  (List.length l <= i)%nat -> LivePage.item l i = Blank.
Proof.
  intros H. unfold LivePage.item.
  apply Nat.ltb_ge in H. now rewrite H.
Qed.

Lemma diff_Blank_r (a : cell) : LivePage.diff a Blank = Blank.
Proof. now destruct a. Qed.

Lemma rows_of_nth (self : LivePageObj) (i : nat) :
  (i < Nat.max (List.length (ref_x self)) (List.length (act_x self)))%nat ->
  nth_error (LivePage.rows_of self) i = Some (LivePage.row self i).
Proof.
  intros H. unfold LivePage.rows_of.
  rewrite nth_error_map, nth_error_seq.
  apply Nat.ltb_lt in H. now rewrite H.
Qed.

(** C3. After [update_table], when the reference is a sequence of points
    and the history a sequence of samples (their X and Y lists equally
    long), the table has a row for every index below the longer of the two.
    Where both a sample and a reference point exist, the row's differences
    are actual minus reference in X and in Y; where either is missing, both
    difference cells are the blank cell, which is no number at all (neither
    zero nor NaN).  For the reference (0,0), (1,2) and the single sample
    (0.1, 0.1) the differences are 0.1 and 0.1 at index 0 and blank at
    index 1. *)
Theorem deviation_rows (w : World) (i : nat) :
  let self := live w in
  let t := table (live (snd (LivePage.update_table w))) in
  (List.length (ref_x self) = List.length (ref_y self) ->
   List.length (act_x self) = List.length (act_y self) ->
   (i < Nat.max (List.length (ref_x self)) (List.length (act_x self)))%nat ->
   exists r,
     nth_error t i = Some r
     /\ ((i < List.length (act_x self))%nat ->
         (i < List.length (ref_x self))%nat ->
         exists ax ay rx ry,
           nth_error (act_x self) i = Some ax
           /\ nth_error (act_y self) i = Some ay
           /\ nth_error (ref_x self) i = Some rx
           /\ nth_error (ref_y self) i = Some ry
           /\ diff_x_cell r = Num (sub ax rx)
           /\ diff_y_cell r = Num (sub ay ry))
     /\ ((List.length (act_x self) <= i)%nat
         \/ (List.length (ref_x self) <= i)%nat ->
         diff_x_cell r = Blank /\ diff_y_cell r = Blank)
     /\ (forall f, Blank <> Num f))
  /\ (ref_x self = [decimal 0 1; decimal 1 1] ->
      ref_y self = [decimal 0 1; decimal 2 1] ->
      act_x self = [decimal 1 10] ->
      act_y self = [decimal 1 10] ->
      exists r0 r1,
        t = [r0; r1]
        /\ diff_x_cell r0 = Num (decimal 1 10)
        /\ diff_y_cell r0 = Num (decimal 1 10)
        /\ diff_x_cell r1 = Blank
        /\ diff_y_cell r1 = Blank).
Proof.
  cbn zeta. unfold LivePage.update_table, modify.
  cbn [snd live with_live table LivePage.set_table].
  split.
  - intros Href Hact Hi.
    exists (LivePage.row (live w) i). split; [now apply rows_of_nth |].
    unfold LivePage.row. cbn [diff_x_cell diff_y_cell].
    split; [| split].
    + intros Ha Hr.
      destruct (nth_error (act_x (live w)) i) as [ax |] eqn:Eax;
        [| apply nth_error_None in Eax; lia].
      destruct (nth_error (act_y (live w)) i) as [ay |] eqn:Eay;
        [| apply nth_error_None in Eay; lia].
      destruct (nth_error (ref_x (live w)) i) as [rx |] eqn:Erx;
        [| apply nth_error_None in Erx; lia].
      destruct (nth_error (ref_y (live w)) i) as [ry |] eqn:Ery;
        [| apply nth_error_None in Ery; lia].
      exists ax, ay, rx, ry.
      rewrite (item_Some _ _ _ Eax), (item_Some _ _ _ Eay),
        (item_Some _ _ _ Erx), (item_Some _ _ _ Ery).
      repeat split.
    + intros [Ha | Hr].
      * rewrite (item_Blank (act_x (live w)) i Ha).
        rewrite (item_Blank (act_y (live w)) i) by lia.
        split; reflexivity.
      * rewrite (item_Blank (ref_x (live w)) i Hr).
        rewrite (item_Blank (ref_y (live w)) i) by lia.
        split; apply diff_Blank_r.
    + discriminate.
  - intros Hrx Hry Hax Hay.
    unfold LivePage.rows_of, LivePage.row. rewrite Hrx, Hry, Hax, Hay.
    do 2 eexists. split; [reflexivity |]. repeat split.
Qed.

Lemma deviation_rows_witness :
  exists r0 r1,
    table (live (snd (LivePage.update_table
                        (with_live bench_page (startup true silent_plc)))))
    = [r0; r1]
    /\ diff_x_cell r0 = Num (decimal 1 10)
    /\ diff_y_cell r0 = Num (decimal 1 10)
    /\ diff_x_cell r1 = Blank
    /\ diff_y_cell r1 = Blank.
Proof.
  destruct (deviation_rows (with_live bench_page (startup true silent_plc)) 0)
    as (Hgen & Hsc).
  destruct (Hgen eq_refl eq_refl) as (r & _ & _ & _ & _);
    [cbn; lia |].
  exact (Hsc eq_refl eq_refl eq_refl eq_refl).
Defined.

(** ** Scale factors *)

(** Saving the form with 0 as X scale factor is not rejected: [save]
    returns, the configuration now has [x_ppr] 0, whereas the claimed rule
    rejects the update; the next tick with two good encoder reads then
    raises [ZeroDivisionError]. *)
Lemma save_zero_scale_accepted :
  let w := startup true bench_plc in
  let w' := snd (MoreSettingsPage.save "0" "1000" w) in
  fst (MoreSettingsPage.save "0" "1000" w) = Ok tt
  /\ x_ppr (CONFIG w') = 0
  /\ CONFIG w' <> CONFIG w
  /\ save_claimed 0 1000 (CONFIG w) = None
  /\ fst (LivePage.read_plc w') = Raise ZeroDivisionError.
Proof.
  cbn zeta. repeat split. discriminate.
Qed.

(** C6, as the code has it. [save] makes no check on the sign of the scale
    factors: when the two fields read as integers x and y, zero and
    negative ones included, it returns without raising, and afterwards
    [x_ppr] is x and [y_ppr] is y, with everything else in the world as
    before. *)
Theorem save_applies_any_integers (xp yp : string) (x y : Z) (w : World) :
  int xp = Ok x ->
  int yp = Ok y ->
  MoreSettingsPage.save xp yp w
  = (Ok tt, with_CONFIG (set_y_ppr y (set_x_ppr x (CONFIG w))) w).
Proof.
  intros Hx Hy. unfold MoreSettingsPage.save, bind, lift, modify.
  now rewrite Hx, Hy.
Qed.

Lemma save_applies_any_integers_witness :
  MoreSettingsPage.save " -5" "0" (startup false silent_plc)
  = (Ok tt,
     with_CONFIG (set_y_ppr 0 (set_x_ppr (-5) CONFIG0)) (startup false silent_plc)).
Proof.
  apply (save_applies_any_integers " -5" "0" (-5) 0 (startup false silent_plc));
    reflexivity.
Defined.

(** ** Port discovery *)

Lemma prefix_app (n h : string) :
  prefix n h = true <-> exists suf, h = (n ++ suf)%string.
Proof.
  revert h. induction n as [| c n IH]; intros h.
  - split; [intros _; now exists h | intros _; now destruct h].
  - destruct h as [| d h]; cbn [prefix].
    + split; [discriminate | intros (suf & H); discriminate H].
    + destruct (ascii_dec c d) as [-> | Hne].
      * rewrite IH. split.
        -- intros (suf & ->). now exists suf.
        -- intros (suf & H). injection H as ->. now exists suf.
      * split; [discriminate |].
        intros (suf & H). injection H as H _. congruence.
Qed.

(** [contains] is the substring test. *)
Lemma contains_app (n h : string) :
  contains n h = true <-> exists pre suf, h = (pre ++ n ++ suf)%string.
Proof.
  induction h as [| d h IH].
  - cbn [contains]. rewrite orb_false_r, prefix_app. split.
    + intros (suf & H). now exists EmptyString, suf.
    + intros (pre & suf & H). destruct pre as [| c pre]; [| discriminate H].
      now exists suf.
  - cbn [contains]. rewrite orb_true_iff, prefix_app, IH. split.
    + intros [(suf & H) | (pre & suf & H)].
      * now exists EmptyString, suf.
      * exists (String d pre), suf. cbn. now rewrite H.
    + intros (pre & suf & H). destruct pre as [| c pre].
      * left. now exists suf.
      * right. injection H as _ H. now exists pre, suf.
Qed.

Lemma adapter_name_test (p : ListPortInfo) :
  (contains "USB" (description p) || contains "Serial" (description p))%bool = true
  <-> adapter_name p.
Proof.
  unfold adapter_name. rewrite orb_true_iff, !contains_app. split.
  - intros [(pre & suf & H) | (pre & suf & H)]; exists pre, suf; auto.
  - intros (pre & suf & [H | H]); [left | right]; now exists pre, suf.
Qed.

(** A port named in lower case matches under the claimed rule and is
    passed over by [auto_port]. *)
Lemma auto_port_lower_case_missed :
  auto_port [mkPort "COM3" "usb modem"] = None
  /\ discoverPort_claimed [mkPort "COM3" "usb modem"] = Some "COM3".
Proof. split; reflexivity. Qed.

(** C7, as the code has it. [auto_port] returns the device of the first
    listed port whose descriptive name contains "USB" or "Serial" with
    exactly that letter case, and [None] exactly when no listed port has
    such a name. *)
Theorem auto_port_first_match (comports : list ListPortInfo) :
  (forall d,
      auto_port comports = Some d
      <-> exists before p after,
            comports = before ++ p :: after
            /\ Forall (fun q => ~ adapter_name q) before
            /\ adapter_name p
            /\ device p = d)
  /\ (auto_port comports = None
      <-> Forall (fun q => ~ adapter_name q) comports).
Proof.
  induction comports as [| p rest [IHsome IHnone]]; cbn [auto_port].
  - split.
    + intros d. split; [discriminate |].
      intros (before & q & after & H & _). now destruct before.
    + split; [constructor | reflexivity].
  - destruct (contains "USB" (description p) || contains "Serial" (description p))%bool
      eqn:E.
    + apply adapter_name_test in E. split.
      * intros d. split.
        -- intros [= <-]. exists [], p, rest. repeat split; [constructor | exact E].
        -- intros (before & q & after & H & Hb & Hq & Hd).
           destruct before as [| b before]; cbn in H; injection H as -> ->.
           ++ now rewrite Hd.
           ++ inversion Hb; subst. contradiction.
      * split; [discriminate |]. intros H. inversion H; subst. contradiction.
    + assert (Hp : ~ adapter_name p)
        by (intros H; apply adapter_name_test in H; congruence).
      split.
      * intros d. rewrite IHsome. split.
        -- intros (before & q & after & -> & Hb & Hq & Hd).
           exists (p :: before), q, after. repeat split; auto.
        -- intros (before & q & after & H & Hb & Hq & Hd).
           destruct before as [| b before]; cbn in H; injection H as -> ->.
           ++ contradiction.
           ++ inversion Hb; subst. exists before, q, after. repeat split; auto.
      * rewrite IHnone. split.
        -- intros H. now constructor.
        -- intros H. now inversion H.
Qed.

Lemma auto_port_first_match_witness :
  auto_port [mkPort "COM1" "Bluetooth link"; mkPort "COM4" "USB-SERIAL CH340";
             mkPort "COM7" "Prolific USB-to-Serial"]
  = Some "COM4"
  /\ (auto_port [mkPort "COM1" "Bluetooth link"] = None).
Proof.
  assert (Hblue : ~ adapter_name (mkPort "COM1" "Bluetooth link"))
    by (intros H; apply adapter_name_test in H; discriminate H).
  split.
  - apply (proj1 (auto_port_first_match _)).
    exists [mkPort "COM1" "Bluetooth link"], (mkPort "COM4" "USB-SERIAL CH340"),
      [mkPort "COM7" "Prolific USB-to-Serial"].
    split; [reflexivity |]. split; [now constructor |].
    split; [| reflexivity].
    exists EmptyString, "-SERIAL CH340". left. reflexivity.
  - apply (proj2 (auto_port_first_match _)). now constructor.
Defined.

(** ** Printing and reading integers *)

Lemma digits_step (c : ascii) (rest : string) (acc dv : Z) (b : bool) :
  Ascii.eqb c "_" = false ->
  digit c = Some dv ->
  digits (String c rest) acc b = digits rest (10 * acc + dv) true.
Proof. intros Hu Hd. cbn [digits]. now rewrite Hu, Hd. Qed.

Lemma digits_uint_acc (d : Decimal.uint) (acc : positive) :
  digits (NilEmpty.string_of_uint d) (Z.pos acc) true
  = Some (Z.pos (Pos.of_uint_acc d acc)).
Proof.
  revert acc.
  induction d as [| d IH | d IH | d IH | d IH | d IH | d IH | d IH | d IH
                  | d IH | d IH]; intros acc;
    cbn [NilEmpty.string_of_uint Pos.of_uint_acc]; [reflexivity | ..];
    (erewrite digits_step; [| reflexivity | reflexivity]);
    match goal with
    | |- digits _ ?z true = Some (Z.pos (Pos.of_uint_acc _ ?q)) =>
        replace z with (Z.pos q)
          by (match z with
              | context [Z.of_nat ?t] =>
                  let v := eval vm_compute in (Z.of_nat t) in
                  change (Z.of_nat t) with v
              end; lia)
    end;
    apply IH.
Qed.

Ltac eval_digit :=
  match goal with
  | |- context [Z.of_nat ?t] =>
      let v := eval vm_compute in (Z.of_nat t) in
      change (Z.of_nat t) with v
  end.

Lemma digits_uint_from (d : Decimal.uint) (b : bool) :
  d <> Decimal.Nil \/ b = true ->
  digits (NilEmpty.string_of_uint d) 0 b = Some (Z.of_N (Pos.of_uint d)).
Proof.
  revert b.
  induction d as [| d IH | d IH | d IH | d IH | d IH | d IH | d IH | d IH
                  | d IH | d IH]; intros b Hb;
    cbn [NilEmpty.string_of_uint Pos.of_uint]; try cbn [Z.of_N].
  - destruct Hb as [Hb | ->]; [congruence | reflexivity].
  - erewrite digits_step; [| reflexivity | reflexivity].
    eval_digit. apply IH. now right.
  - erewrite digits_step; [| reflexivity | reflexivity].
    eval_digit. apply digits_uint_acc.
  - erewrite digits_step; [| reflexivity | reflexivity].
    eval_digit. apply digits_uint_acc.
  - erewrite digits_step; [| reflexivity | reflexivity].
    eval_digit. apply digits_uint_acc.
  - erewrite digits_step; [| reflexivity | reflexivity].
    eval_digit. apply digits_uint_acc.
  - erewrite digits_step; [| reflexivity | reflexivity].
    eval_digit. apply digits_uint_acc.
  - erewrite digits_step; [| reflexivity | reflexivity].
    eval_digit. apply digits_uint_acc.
  - erewrite digits_step; [| reflexivity | reflexivity].
    eval_digit. apply digits_uint_acc.
  - erewrite digits_step; [| reflexivity | reflexivity].
    eval_digit. apply digits_uint_acc.
  - erewrite digits_step; [| reflexivity | reflexivity].
    eval_digit. apply digits_uint_acc.
Qed.

Lemma lstrip_spaceless (s : string) : spaceless s -> lstrip s = s.
Proof. destruct s as [| c s]; [reflexivity |]. cbn. now intros [-> _]. Qed.

Lemma rstrip_spaceless (s : string) : spaceless s -> rstrip s = s.
Proof.
  induction s as [| c s IH]; [reflexivity |].
  cbn [spaceless rstrip]. intros [Hc Hs]. rewrite (IH Hs), Hc.
  now destruct s.
Qed.

Lemma strip_spaceless (s : string) : spaceless s -> strip s = s.
Proof.
  intros H. unfold strip. rewrite (lstrip_spaceless s H).
  now apply rstrip_spaceless.
Qed.

Lemma uint_spaceless (d : Decimal.uint) : spaceless (NilEmpty.string_of_uint d).
Proof.
  induction d; cbn [NilEmpty.string_of_uint spaceless]; auto.
Qed.

Lemma pos_to_uint_not_Nil (p : positive) : Pos.to_uint p <> Decimal.Nil.
Proof.
  intros H. pose proof (DecimalPos.Unsigned.of_to p) as E.
  rewrite H in E. discriminate E.
Qed.

Lemma nilzero_pos (p : positive) :
  NilZero.string_of_uint (Pos.to_uint p) = NilEmpty.string_of_uint (Pos.to_uint p).
Proof.
  pose proof (pos_to_uint_not_Nil p) as H.
  unfold NilZero.string_of_uint. now destruct (Pos.to_uint p).
Qed.

(** A printed natural number starts with a digit, so [int] takes it for an
    unsigned numeral. *)
Lemma int_unsigned (d : Decimal.uint) :
  d <> Decimal.Nil ->
  int (NilEmpty.string_of_uint d) = Ok (Z.of_N (Pos.of_uint d)).
Proof.
  intros Hd. unfold int.
  rewrite (strip_spaceless _ (uint_spaceless d)).
  pose proof (digits_uint_from d false (or_introl Hd)) as E.
  destruct d; try congruence; cbn [NilEmpty.string_of_uint] in *;
    now rewrite E.
Qed.

(** Reading back what [str] printed. *)
Lemma int_str (n : Z) : int (str n) = Ok n.
Proof.
  unfold str. destruct n as [| p | p]; cbn [Z.to_int NilZero.string_of_int].
  - reflexivity.
  - rewrite nilzero_pos, (int_unsigned _ (pos_to_uint_not_Nil p)).
    now rewrite DecimalPos.Unsigned.of_to.
  - rewrite nilzero_pos. unfold int.
    assert (Hs : spaceless (String "-" (NilEmpty.string_of_uint (Pos.to_uint p))))
      by (split; [reflexivity | apply uint_spaceless]).
    rewrite (strip_spaceless _ Hs).
    rewrite (digits_uint_from _ false (or_introl (pos_to_uint_not_Nil p))).
    now rewrite DecimalPos.Unsigned.of_to.
Qed.

Lemma int_raises (s : string) (e : exn) : int s = Raise e -> e = ValueError.
Proof.
  unfold int.
  destruct (match strip s with
            | String "+" rest => digits rest 0 false
            | String "-" rest => option_map Z.opp (digits rest 0 false)
            | _ => digits (strip s) 0 false
            end); [discriminate | now intros [= <-]].
Qed.

(** ** The scale-factor form, beyond its checks *)

Lemma with_CONFIG_same (w : World) : with_CONFIG (CONFIG w) w = w.
Proof. destruct w; reflexivity. Qed.

(** X1. Saving the scale-factor form as it was built, nothing edited, changes
    nothing: the fields show [str] of the two factors and [int] reads them
    back. *)
Theorem more_settings_unedited (w : World) :
  MoreSettingsPage.save (fst (MoreSettingsPage_init (CONFIG w)))
    (snd (MoreSettingsPage_init (CONFIG w))) w
  = (Ok tt, w).
Proof.
  unfold MoreSettingsPage.save, MoreSettingsPage_init, bind, lift, modify.
  cbn [fst snd]. rewrite !int_str.
  destruct w as [c cn d l p]; destruct c; reflexivity.
Qed.

(** X2. The scale-factor form is stored field by field.  When the X field does
    not read as an integer, [save] raises [ValueError] and nothing is
    changed; when the X field reads as x and the Y field does not read as
    an integer, [save] raises [ValueError] with [x_ppr] already set to x
    and [y_ppr] as before. *)
Theorem more_settings_half_saved (xp yp : string) (w : World) :
  (forall e, int xp = Raise e ->
     MoreSettingsPage.save xp yp w = (Raise ValueError, w))
  /\ (forall x e, int xp = Ok x -> int yp = Raise e ->
        MoreSettingsPage.save xp yp w
        = (Raise ValueError, with_CONFIG (set_x_ppr x (CONFIG w)) w)
        /\ x_ppr (CONFIG (snd (MoreSettingsPage.save xp yp w))) = x
        /\ y_ppr (CONFIG (snd (MoreSettingsPage.save xp yp w)))
           = y_ppr (CONFIG w)).
Proof.
  unfold MoreSettingsPage.save, bind, lift, modify. split.
  - intros e He. rewrite He. now rewrite (int_raises _ _ He).
  - intros x e Hx He. rewrite Hx, He. rewrite (int_raises _ _ He).
    repeat split.
Qed.

Lemma more_settings_half_saved_witness :
  MoreSettingsPage.save "abc" "5" (startup false silent_plc)
  = (Raise ValueError, startup false silent_plc)
  /\ x_ppr (CONFIG (snd (MoreSettingsPage.save "250" "1e3"
                           (startup false silent_plc)))) = 250
  /\ y_ppr (CONFIG (snd (MoreSettingsPage.save "250" "1e3"
                           (startup false silent_plc)))) = 1000.
Proof.
  destruct (more_settings_half_saved "abc" "5" (startup false silent_plc))
    as (H1 & _).
  destruct (more_settings_half_saved "250" "1e3" (startup false silent_plc))
    as (_ & H2).
  destruct (H2 250 ValueError eq_refl eq_refl) as (_ & Hx & Hy).
  split; [exact (H1 ValueError eq_refl) | split; [exact Hx | exact Hy]].
Defined.

(** ** The register form *)

Lemma Key_eqb_eq (a b : SettingsPage.Key) :
  SettingsPage.Key_eqb a b = true <-> a = b.
Proof. destruct a, b; cbn; split; congruence. Qed.

Lemma get_set_same (k : SettingsPage.Key) (r : RegisterRef) (c : Config) :
  SettingsPage.get k (SettingsPage.set k r c) = r.
Proof. destruct k; reflexivity. Qed.

Lemma get_set_other (k k' : SettingsPage.Key) (r : RegisterRef) (c : Config) :
  k <> k' ->
  SettingsPage.get k' (SettingsPage.set k r c) = SettingsPage.get k' c.
Proof. destruct k, k'; intros H; try reflexivity; congruence. Qed.

Lemma get_stored fields a ks :
  forall c k,
    SettingsPage.get k (stored fields a ks c)
    = if existsb (SettingsPage.Key_eqb k) ks
      then mkReg (SettingsPage.currentText (fields k)) (a k)
      else SettingsPage.get k c.
Proof.
  unfold stored.
  induction ks as [| k0 ks IH]; intros c k; cbn [fold_left existsb].
  - reflexivity.
  - rewrite IH. destruct (existsb (SettingsPage.Key_eqb k) ks).
    + now rewrite orb_true_r.
    + rewrite orb_false_r.
      destruct (SettingsPage.Key_eqb k k0) eqn:E.
      * apply Key_eqb_eq in E. subst k0. apply get_set_same.
      * apply get_set_other. intros ->.
        assert (SettingsPage.Key_eqb k k = true) by now apply Key_eqb_eq.
        congruence.
Qed.

(** Only the six register entries are ever stored by the form. *)
Lemma stored_rest fields a ks :
  forall c,
    baudrate (stored fields a ks c) = baudrate c
    /\ x_zero_bit (stored fields a ks c) = x_zero_bit c
    /\ y_zero_bit (stored fields a ks c) = y_zero_bit c
    /\ x_ppr (stored fields a ks c) = x_ppr c
    /\ y_ppr (stored fields a ks c) = y_ppr c.
Proof.
  unfold stored. induction ks as [| k0 ks IH]; intros c; cbn [fold_left].
  - repeat split.
  - destruct (IH (SettingsPage.set k0
                    (mkReg (SettingsPage.currentText (fields k0)) (a k0)) c))
      as (H1 & H2 & H3 & H4 & H5).
    rewrite H1, H2, H3, H4, H5. repeat split.
Qed.

Lemma save_loop_ok fields a ks :
  forall w,
    (forall k, In k ks -> int (SettingsPage.text (fields k)) = Ok (a k)) ->
    SettingsPage.save_loop fields ks w
    = (Ok tt, with_CONFIG (stored fields a ks (CONFIG w)) w).
Proof.
  induction ks as [| k ks IH]; intros w H; cbn [SettingsPage.save_loop].
  - unfold ret, stored. cbn [fold_left]. now rewrite with_CONFIG_same.
  - unfold bind, lift, modify. rewrite (H k (or_introl eq_refl)).
    rewrite IH by (intros k' Hk'; apply H; now right).
    reflexivity.
Qed.

Lemma save_loop_stops fields a before k after :
  forall w,
    (forall k', In k' before -> int (SettingsPage.text (fields k')) = Ok (a k')) ->
    (exists e, int (SettingsPage.text (fields k)) = Raise e) ->
    SettingsPage.save_loop fields (before ++ k :: after) w
    = (Raise ValueError, with_CONFIG (stored fields a before (CONFIG w)) w).
Proof.
  induction before as [| k0 before IH]; intros w H (e & He);
    cbn [SettingsPage.save_loop app].
  - unfold bind, lift. rewrite He, (int_raises _ _ He).
    unfold stored. cbn [fold_left]. now rewrite with_CONFIG_same.
  - unfold bind, lift, modify. rewrite (H k0 (or_introl eq_refl)).
    rewrite IH; [reflexivity | | now exists e].
    intros k' Hk'. apply H. now right.
Qed.

Lemma existsb_keys (k : SettingsPage.Key) :
  existsb (SettingsPage.Key_eqb k) SettingsPage.keys = true.
Proof. destruct k; reflexivity. Qed.

(** X3. When the six address fields all read as integers, [SettingsPage.save]
    returns and replaces each of the six register entries by the selected
    tag with the entered integer, negative ones included; the zero bits, the
    baud rate, the scale factors and the rest of the world stay as they
    were. *)
Theorem settings_save_all (fields : SettingsPage.Key -> SettingsPage.Field)
    (a : SettingsPage.Key -> Z) (w : World) :
  (forall k, int (SettingsPage.text (fields k)) = Ok (a k)) ->
  exists c',
    SettingsPage.save fields w = (Ok tt, with_CONFIG c' w)
    /\ (forall k,
          SettingsPage.get k c'
          = mkReg (SettingsPage.currentText (fields k)) (a k))
    /\ baudrate c' = baudrate (CONFIG w)
    /\ x_zero_bit c' = x_zero_bit (CONFIG w)
    /\ y_zero_bit c' = y_zero_bit (CONFIG w)
    /\ x_ppr c' = x_ppr (CONFIG w)
    /\ y_ppr c' = y_ppr (CONFIG w).
Proof.
  intros H. exists (stored fields a SettingsPage.keys (CONFIG w)).
  split; [| split].
  - unfold SettingsPage.save. apply save_loop_ok. intros k _. apply H.
  - intros k. now rewrite get_stored, existsb_keys.
  - apply stored_rest.
Qed.

Lemma settings_save_all_witness :
  exists c',
    SettingsPage.save (typed_form "7" "-3" "10" "11" "12" "13")
      (startup false silent_plc)
    = (Ok tt, with_CONFIG c' (startup false silent_plc))
    /\ y_encoder c' = mkReg "D" (-3)
    /\ x_ppr c' = 1000.
Proof.
  destruct (settings_save_all (typed_form "7" "-3" "10" "11" "12" "13")
              (fun k => match k with
                        | SettingsPage.k_x_encoder => 7
                        | SettingsPage.k_y_encoder => -3
                        | SettingsPage.k_start_bit => 10
                        | SettingsPage.k_stop_bit => 11
                        | SettingsPage.k_run_bit => 12
                        | SettingsPage.k_plot_start_bit => 13
                        end)
              (startup false silent_plc))
    as (c' & E & Hget & _ & _ & _ & Hx & _).
  - intros k. destruct k; reflexivity.
  - exists c'. split; [exact E | split; [| exact Hx]].
    exact (Hget SettingsPage.k_y_encoder).
Defined.

(** X4. [SettingsPage.save] is not all-or-nothing.  When the address field of
    some key does not read as an integer while the fields of the keys before
    it do, [save] raises [ValueError]; the entries of the keys before it are
    already replaced, and the entry of that key and of every later key is
    as before. *)
Theorem settings_save_stops_midway
    (fields : SettingsPage.Key -> SettingsPage.Field)
    (a : SettingsPage.Key -> Z) (before after : list SettingsPage.Key)
    (k : SettingsPage.Key) (w : World) :
  SettingsPage.keys = before ++ k :: after ->
  (forall k', In k' before -> int (SettingsPage.text (fields k')) = Ok (a k')) ->
  (exists e, int (SettingsPage.text (fields k)) = Raise e) ->
  exists c',
    SettingsPage.save fields w = (Raise ValueError, with_CONFIG c' w)
    /\ (forall k', In k' before ->
          SettingsPage.get k' c'
          = mkReg (SettingsPage.currentText (fields k')) (a k'))
    /\ (forall k', ~ In k' before ->
          SettingsPage.get k' c' = SettingsPage.get k' (CONFIG w))
    /\ x_ppr c' = x_ppr (CONFIG w)
    /\ y_ppr c' = y_ppr (CONFIG w).
Proof.
  intros Hk Hb He. exists (stored fields a before (CONFIG w)).
  split; [| split; [| split]].
  - unfold SettingsPage.save. rewrite Hk. now apply save_loop_stops.
  - intros k' Hin. rewrite get_stored.
    assert (E : existsb (SettingsPage.Key_eqb k') before = true).
    { apply existsb_exists. exists k'. split; [exact Hin |].
      now apply Key_eqb_eq. }
    now rewrite E.
  - intros k' Hin. rewrite get_stored.
    destruct (existsb (SettingsPage.Key_eqb k') before) eqn:E; [| reflexivity].
    apply existsb_exists in E. destruct E as (k'' & Hin' & E).
    apply Key_eqb_eq in E. subst k''. contradiction.
  - destruct (stored_rest fields a before (CONFIG w)) as (_ & _ & _ & Hx & Hy).
    split; assumption.
Qed.

Lemma settings_save_stops_midway_witness :
  exists c',
    SettingsPage.save (typed_form "7" "8" "ten" "11" "12" "13")
      (startup false silent_plc)
    = (Raise ValueError, with_CONFIG c' (startup false silent_plc))
    /\ x_encoder c' = mkReg "D" 7
    /\ y_encoder c' = mkReg "D" 8
    /\ start_bit c' = mkReg "M" 10
    /\ run_bit c' = mkReg "M" 12.
Proof.
  destruct (settings_save_stops_midway
              (typed_form "7" "8" "ten" "11" "12" "13")
              (fun k => match k with
                        | SettingsPage.k_x_encoder => 7
                        | _ => 8
                        end)
              [SettingsPage.k_x_encoder; SettingsPage.k_y_encoder]
              [SettingsPage.k_stop_bit; SettingsPage.k_run_bit;
               SettingsPage.k_plot_start_bit]
              SettingsPage.k_start_bit (startup false silent_plc) eq_refl)
    as (c' & E & Hdone & Hkept & _).
  - intros k' [<- | [<- | []]]; reflexivity.
  - exists ValueError. reflexivity.
  - exists c'. split; [exact E |].
    split; [exact (Hdone SettingsPage.k_x_encoder (or_introl eq_refl)) |].
    split; [exact (Hdone SettingsPage.k_y_encoder (or_intror (or_introl eq_refl))) |].
    split.
    + apply (Hkept SettingsPage.k_start_bit).
      intros [H | [H | []]]; discriminate H.
    + apply (Hkept SettingsPage.k_run_bit).
      intros [H | [H | []]]; discriminate H.
Defined.

Lemma config_ext (c c' : Config) :
  (forall k, SettingsPage.get k c' = SettingsPage.get k c) ->
  baudrate c' = baudrate c ->
  x_zero_bit c' = x_zero_bit c ->
  y_zero_bit c' = y_zero_bit c ->
  x_ppr c' = x_ppr c ->
  y_ppr c' = y_ppr c ->
  c' = c.
Proof.
  intros Hg H1 H2 H3 H4 H5.
  pose proof (Hg SettingsPage.k_x_encoder) as G1.
  pose proof (Hg SettingsPage.k_y_encoder) as G2.
  pose proof (Hg SettingsPage.k_start_bit) as G3.
  pose proof (Hg SettingsPage.k_stop_bit) as G4.
  pose proof (Hg SettingsPage.k_run_bit) as G5.
  pose proof (Hg SettingsPage.k_plot_start_bit) as G6.
  destruct c, c'. cbn in *. congruence.
Qed.

Lemma settings_save_all_aux (w : World) :
  exists c',
    SettingsPage.save (SettingsPage.init (CONFIG w)) w
    = (Ok tt, with_CONFIG c' w)
    /\ (forall k,
          SettingsPage.get k c'
          = mkReg (if tag_in (type (SettingsPage.get k (CONFIG w)))
                        SettingsPage.items
                   then type (SettingsPage.get k (CONFIG w))
                   else "D")
                  (addr (SettingsPage.get k (CONFIG w))))
    /\ (baudrate c' = baudrate (CONFIG w)
        /\ x_zero_bit c' = x_zero_bit (CONFIG w)
        /\ y_zero_bit c' = y_zero_bit (CONFIG w)
        /\ x_ppr c' = x_ppr (CONFIG w)
        /\ y_ppr c' = y_ppr (CONFIG w)).
Proof.
  exists (stored (SettingsPage.init (CONFIG w))
            (fun k => addr (SettingsPage.get k (CONFIG w)))
            SettingsPage.keys (CONFIG w)).
  split; [| split].
  - unfold SettingsPage.save. apply save_loop_ok.
    intros k _. unfold SettingsPage.init, SettingsPage.row.
    cbn [SettingsPage.text]. apply int_str.
  - intros k. now rewrite get_stored, existsb_keys.
  - apply stored_rest.
Qed.

(** X5. Saving the register form as it was built, nothing edited, always
    succeeds and keeps every address.  A tag that is one of the six combo
    entries is kept; any other tag is replaced by "D", the entry the combo
    box shows for it.  So when all six tags are combo entries the world is
    unchanged. *)
Theorem settings_unedited (w : World) :
  (exists c',
      SettingsPage.save (SettingsPage.init (CONFIG w)) w
      = (Ok tt, with_CONFIG c' w)
      /\ (forall k,
            addr (SettingsPage.get k c') = addr (SettingsPage.get k (CONFIG w))
            /\ type (SettingsPage.get k c')
               = if tag_in (type (SettingsPage.get k (CONFIG w))) SettingsPage.items
                 then type (SettingsPage.get k (CONFIG w))
                 else "D"))
  /\ ((forall k,
         tag_in (type (SettingsPage.get k (CONFIG w))) SettingsPage.items = true) ->
      SettingsPage.save (SettingsPage.init (CONFIG w)) w = (Ok tt, w)).
Proof.
  destruct (settings_save_all_aux w) as (c' & E & Hget & Hrest).
  split.
  - exists c'. split; [exact E |]. intros k. rewrite Hget. split; reflexivity.
  - intros Hvalid. rewrite E.
    replace c' with (CONFIG w); [now rewrite with_CONFIG_same |].
    symmetry. destruct Hrest as (H1 & H2 & H3 & H4 & H5).
    apply config_ext; try assumption.
    intros k. rewrite Hget, (Hvalid k). now destruct (SettingsPage.get k (CONFIG w)).
Qed.

Lemma settings_unedited_witness :
  SettingsPage.save (SettingsPage.init CONFIG0) (startup false silent_plc)
  = (Ok tt, startup false silent_plc).
Proof.
  destruct (settings_unedited (startup false silent_plc)) as (_ & H).
  apply H. intros k. destruct k; reflexivity.
Defined.


(** ** What goes over the wire, and what a run can change *)

Lemma polls_known (reg : RegisterRef) :
  tag_in (type reg) SettingsPage.items = true -> exists q, polls reg = [q].
Proof.
  unfold polls. intros Hv.
  destruct (tag_in (type reg) ["D"; "C"; "T"]) eqn:E1; [eauto |].
  destruct (tag_in (type reg) ["M"; "Y"]) eqn:E2; [eauto |].
  destruct (String.eqb (type reg) "X") eqn:E3; [eauto |].
  exfalso. unfold tag_in, SettingsPage.items in *. cbn [existsb] in *.
  repeat match goal with
         | H : (_ || _)%bool = false |- _ =>
             apply orb_false_iff in H; destruct H
         end.
  repeat match goal with
         | H : ?a = false |- _ => rewrite H in Hv
         end.
  discriminate Hv.
Qed.

Lemma tick_polls_shape (w : World) :
  Forall is_read (tick_polls w)
  /\ Forall single_item (tick_polls w)
  /\ (List.length (tick_polls w) <= 3)%nat.
Proof.
  unfold tick_polls.
  destruct (sent_shape w (x_encoder (CONFIG w))) as (Fx & Lx).
  destruct (sent_shape w (y_encoder (CONFIG w))) as (Fy & Ly).
  destruct (sent_shape w (run_bit (CONFIG w))) as (Fr & Lr).
  repeat split.
  - rewrite !Forall_app. repeat split;
      (eapply Forall_impl; [| eassumption]); cbn; tauto.
  - rewrite !Forall_app. repeat split;
      (eapply Forall_impl; [| eassumption]); cbn; tauto.
  - rewrite !length_app. lia.
Qed.

Lemma tick_polls_disconnected (w : World) :
  connected w = false -> tick_polls w = [].
Proof. intros H. unfold tick_polls, sent. now rewrite H. Qed.

Lemma after_reads_frame (xr yr rn : option value) (v : World) :
  exists p, snd (LivePage.after_reads xr yr rn v) = with_live p v.
Proof.
  destruct xr as [x |]; [destruct yr as [y |] |].
  - destruct (truediv_cases (as_int x) (x_ppr (CONFIG v)))
      as [(Zx & Tx) | (Nx & Tx)];
      [| destruct (truediv_cases (as_int y) (y_ppr (CONFIG v)))
           as [(Zy & Ty) | (Ny & Ty)]].
    + rewrite (after_reads_zero x y rn v (or_introl Zx)).
      exists (live v). now destruct v.
    + rewrite (after_reads_zero x y rn v (or_intror Zy)).
      exists (live v). now destruct v.
    + rewrite (after_reads_sampled x y rn v _ _ Tx Ty). cbn [snd].
      eexists. reflexivity.
  - rewrite (after_reads_none (Some x) None rn v (or_intror eq_refl)).
    exists (live v). now destruct v.
  - rewrite (after_reads_none None yr rn v (or_introl eq_refl)).
    exists (live v). now destruct v.
Qed.

(** What a tick leaves of the world outside the live page: the wire grows
    by reads only, at most three, none when disconnected. *)
Lemma tick_frame (w : World) :
  exists l p,
    snd (LivePage.read_plc w) = with_live p (with_wire (wire w ++ l) w)
    /\ Forall is_read l
    /\ Forall single_item l
    /\ (List.length l <= 3)%nat
    /\ (connected w = false -> l = [])
    /\ ((exists xr yr rn, reads_return w xr yr rn) -> l = tick_polls w).
Proof.
  destruct (tick_run w)
    as [(xr & yr & rn & Hr & _ & E) | (e & l & E & Hc & _ & Fl & Ll & Hno)];
    rewrite E.
  - destruct (after_reads_frame xr yr rn (with_wire (wire w ++ tick_polls w) w))
      as (p & ->).
    destruct (tick_polls_shape w) as (F1 & F2 & L).
    exists (tick_polls w), p.
    split; [reflexivity |]. split; [exact F1 |]. split; [exact F2 |].
    split; [exact L |]. split; [apply tick_polls_disconnected | reflexivity].
  - exists l, (live w). cbn [snd].
    split; [now destruct w |].
    split; [eapply Forall_impl; [| exact Fl]; cbn; tauto |].
    split; [eapply Forall_impl; [| exact Fl]; cbn; tauto |].
    split; [lia |]. split; [congruence |].
    intros (xr & yr & rn & Hr). destruct (Hno _ _ _ Hr).
Qed.

Lemma save_loop_frame fields ks :
  forall w, exists c', snd (SettingsPage.save_loop fields ks w) = with_CONFIG c' w.
Proof.
  induction ks as [| k ks IH]; intros w; cbn [SettingsPage.save_loop].
  - exists (CONFIG w). cbn. now rewrite with_CONFIG_same.
  - unfold bind, lift, modify.
    destruct (int (SettingsPage.text (fields k))) as [a | e].
    + destruct (IH (with_CONFIG
                      (SettingsPage.set k
                         (mkReg (SettingsPage.currentText (fields k)) a)
                         (CONFIG w)) w)) as (c' & E).
      exists c'.
      destruct (SettingsPage.save_loop fields ks _) as [[u | e] w'];
        cbn [snd] in *; exact E.
    + exists (CONFIG w). cbn. now rewrite with_CONFIG_same.
Qed.

(** What one action can change: never the connection flag or the device;
    the wire only by appending well-formed requests, and only when
    connected; the live page only by a new reference or one new sample,
    redrawn when it can be plotted. *)
Lemma act_effect (w : World) (a : Action) :
  connected (act w a) = connected w
  /\ plc (act w a) = plc w
  /\ (exists l,
        wire (act w a) = wire w ++ l
        /\ Forall single_item l
        /\ (connected w = false -> l = []))
  /\ (live (act w a) = live w
      \/ (exists rx ry,
            a = Do (SetReference rx ry)
            /\ live (act w a) = redrawn (LivePage.set_ref rx ry (live w)))
      \/ (a = Do Tick
          /\ connected w = true
          /\ exists ax ay r,
               live (act w a) = redrawn (recorded ax ay r (live w)))).
Proof.
  unfold act. destruct a as [[| rx ry | xp yp | reg] | fields]; cbn [perform handle].
  - destruct (tick_frame w) as (l & p & E & _ & Fs & _ & Hd & _).
    pose proof (tick_live w) as Hl. rewrite E in *.
    cbn [connected plc wire live with_wire with_live snd] in *.
    split; [reflexivity |]. split; [reflexivity |].
    split; [exists l; repeat split; assumption |].
    destruct Hl as [(Hp & _) | (x & y & rn & ax & ay & _ & _ & _ & Hc & _ & _ & Hp & _)].
    + now left.
    + right. right. split; [reflexivity |]. split; [exact Hc |]. eauto.
  - rewrite set_reference_cases. cbn [snd connected plc wire live with_live].
    split; [reflexivity |]. split; [reflexivity |]. split.
    + exists []. rewrite app_nil_r. repeat split. constructor.
    + right. left. eauto.
  - unfold MoreSettingsPage.save, bind, lift, modify.
    destruct (int xp); [destruct (int yp) |]; cbn;
      (repeat split; [exists []; rewrite app_nil_r; repeat split; constructor
                     | now left]).
  - unfold write_plc_bit, bind, gets, ret, client.write_coil.
    destruct (connected w) eqn:Hc; cbn [andb].
    + destruct (tag_in (type reg) ["M"; "Y"]); cbn iota.
      * rewrite execute_cases.
        destruct (online (plc w) (wire w)); [destruct (encodable _) |];
          cbn [snd connected plc wire live with_wire]; rewrite ?Hc.
        -- repeat split; [| now left].
           eexists. repeat split; [repeat constructor | discriminate].
        -- repeat split; [| now left].
           exists []. rewrite app_nil_r. repeat split. constructor.
        -- repeat split; [| now left].
           exists []. rewrite app_nil_r. repeat split. constructor.
      * cbn. rewrite Hc. repeat split; [| now left].
        exists []. rewrite app_nil_r. repeat split. constructor.
    + cbn. rewrite Hc. repeat split; [| now left].
      exists []. rewrite app_nil_r. repeat split. constructor.
  - unfold SettingsPage.save.
    destruct (save_loop_frame fields SettingsPage.keys w) as (c' & ->).
    cbn. repeat split; [| now left].
    exists []. rewrite app_nil_r. repeat split. constructor.
Qed.

(** X6. Every request the application ever sends asks for exactly one item
    from unit 1, or writes [True] to a coil of unit 1: over any run that
    starts with nothing sent, no read covers several items and no coil is
    ever written [False]. *)
Theorem wire_discipline (w : World) (l : list Action) :
  Forall single_item (wire w) ->
  Forall single_item (wire (run_actions w l)).
Proof.
  unfold run_actions. revert w.
  induction l as [| a l IH]; intros w H; cbn [fold_left]; [exact H |].
  apply IH.
  destruct (act_effect w a) as (_ & _ & (s & -> & Hs & _) & _).
  apply Forall_app. now split.
Qed.

Lemma wire_discipline_witness :
  Forall single_item
    (wire (run_actions (startup true bench_plc)
             [Do Tick; Do (Zero (mkReg "M" 30)); Do Tick]))
  /\ List.length
       (wire (run_actions (startup true bench_plc)
                [Do Tick; Do (Zero (mkReg "M" 30)); Do Tick])) = 7%nat.
Proof.
  split; [| reflexivity].
  apply (wire_discipline (startup true bench_plc)). constructor.
Defined.

(** X7. The histories are append-only.  Over any run each history is what
    it was with new values appended; the two grow by the same number of
    values, at most one per tick of the run. *)
Theorem histories_append_only (w : World) (l : list Action) :
  exists sx sy,
    act_x (live (run_actions w l)) = act_x (live w) ++ sx
    /\ act_y (live (run_actions w l)) = act_y (live w) ++ sy
    /\ List.length sx = List.length sy
    /\ (List.length sx <= count_ticks l)%nat.
Proof.
  unfold run_actions. revert w.
  induction l as [| a l IH]; intros w; cbn [fold_left].
  - exists [], []. rewrite !app_nil_r. repeat split. cbn. lia.
  - destruct (IH (act w a)) as (sx & sy & -> & -> & Hl & Hc).
    destruct (act_effect w a)
      as (_ & _ & _ & [E | [(rx & ry & -> & E) | (-> & _ & ax & ay & r & E)]]);
      rewrite E.
    + exists sx, sy. repeat split; [exact Hl |].
      destruct a as [[| | |] |]; cbn [count_ticks]; lia.
    + destruct (redrawn_lists (LivePage.set_ref rx ry (live w)))
        as (_ & _ & -> & -> & _).
      exists sx, sy. repeat split; [exact Hl | exact Hc].
    + destruct (redrawn_lists (recorded ax ay r (live w)))
        as (_ & _ & -> & -> & _).
      cbn [recorded act_x act_y LivePage.set_labels LivePage.append_act_y
             LivePage.append_act_x].
      exists (ax :: sx), (ay :: sy). rewrite <- !app_assoc.
      repeat split; cbn [List.length count_ticks]; lia.
Qed.

Lemma silent_run (w : World) (l : list Action) :
  connected w = false ->
  connected (run_actions w l) = false
  /\ wire (run_actions w l) = wire w
  /\ act_x (live (run_actions w l)) = act_x (live w)
  /\ act_y (live (run_actions w l)) = act_y (live w)
  /\ xv (live (run_actions w l)) = xv (live w)
  /\ yv (live (run_actions w l)) = yv (live w).
Proof.
  unfold run_actions. revert w.
  induction l as [| a l IH]; intros w Hc; cbn [fold_left].
  - repeat split. exact Hc.
  - destruct (act_effect w a) as (Hcon & _ & (s & Hw & _ & Hs) & Hl).
    assert (Hc' : connected (act w a) = false) by congruence.
    destruct (IH (act w a) Hc') as (H1 & H2 & H3 & H4 & H5 & H6).
    rewrite H1, H2, H3, H4, H5, H6, Hw, (Hs Hc), app_nil_r.
    destruct Hl as [E | [(rx & ry & _ & E) | (_ & Ht & _)]];
      [rewrite E; repeat split | | congruence].
    rewrite E.
    destruct (redrawn_lists (LivePage.set_ref rx ry (live w)))
      as (_ & _ & -> & -> & -> & -> & _).
    repeat split.
Qed.

(** X8. While the application is disconnected nothing happens on the link
    and nothing is recorded: over any run from a disconnected world the
    connection flag stays false, the wire and both histories stay as they
    were, and so do the two readouts. *)
Theorem disconnected_is_silent (w : World) (l : list Action) :
  connected w = false ->
  connected (run_actions w l) = false
  /\ wire (run_actions w l) = wire w
  /\ act_x (live (run_actions w l)) = act_x (live w)
  /\ act_y (live (run_actions w l)) = act_y (live w)
  /\ xv (live (run_actions w l)) = xv (live w)
  /\ yv (live (run_actions w l)) = yv (live w).
Proof. apply silent_run. Qed.

Lemma disconnected_is_silent_witness :
  wire (run_actions (startup false bench_plc)
          [Do Tick; Do (Zero (mkReg "M" 30)); Do Tick]) = []
  /\ act_x (live (run_actions (startup false bench_plc)
                    [Do Tick; Do (Zero (mkReg "M" 30)); Do Tick])) = [].
Proof.
  destruct (disconnected_is_silent (startup false bench_plc)
              [Do Tick; Do (Zero (mkReg "M" 30)); Do Tick] eq_refl)
    as (_ & Hw & Hx & _).
  split; [exact Hw | exact Hx].
Defined.

(** X9. Recomputing the deviation table is idempotent and touches nothing
    but the table: a second [update_table] right after a first leaves the
    world the first one left. *)
Theorem update_table_idempotent (w : World) :
  snd (LivePage.update_table (snd (LivePage.update_table w)))
  = snd (LivePage.update_table w)
  /\ with_live (LivePage.set_table (table (live w))
                  (live (snd (LivePage.update_table w))))
       (snd (LivePage.update_table w)) = w.
Proof.
  unfold LivePage.update_table, modify. cbn [snd].
  destruct w as [c cn d l p]; destruct p; split; reflexivity.
Qed.

Lemma plottable_iff (p : LivePageObj) :
  plottable p = true
  <-> (ref_x p = [] \/ List.length (ref_x p) = List.length (ref_y p))
      /\ (act_x p = [] \/ List.length (act_x p) = List.length (act_y p)).
Proof.
  unfold plottable. rewrite andb_true_iff.
  destruct (ref_x p) as [| a rx]; destruct (act_x p) as [| b ax];
    cbn [LivePage.nonempty]; rewrite ?Nat.eqb_eq;
    intuition (auto; discriminate).
Qed.

Lemma plottable_redrawn (p : LivePageObj) : plottable (redrawn p) = plottable p.
Proof. unfold redrawn. now destruct (plottable p) eqn:E. Qed.

Lemma redrawn_table (p : LivePageObj) :
  plottable p = true -> table (redrawn p) = LivePage.rows_of (redrawn p).
Proof. intros H. unfold redrawn. now rewrite H. Qed.

(** X10. From the start of the application on, whenever the reference the
    page holds can be plotted (its X list is empty or as long as its Y
    list), the table shows the deviation of the reference and history the
    page currently holds, so it has as many rows as the longer of the
    reference X list and the X history.  (After a reference with lists of
    different lengths has been taken over, redrawing raises before the table
    is rebuilt and the table stays behind.) *)
Theorem table_always_current (c : bool) (d : Device) (l : list Action) :
  let p := live (run_actions (startup c d) l) in
  ref_x p = [] \/ List.length (ref_x p) = List.length (ref_y p) ->
  table p = LivePage.rows_of p
  /\ List.length (table p)
     = Nat.max (List.length (ref_x p)) (List.length (act_x p)).
Proof.
  cbn zeta.
  assert (H : forall w,
             (List.length (act_x (live w)) = List.length (act_y (live w))
              /\ (plottable (live w) = true -> synced (live w))) ->
             List.length (act_x (live (run_actions w l)))
             = List.length (act_y (live (run_actions w l)))
             /\ (plottable (live (run_actions w l)) = true ->
                 synced (live (run_actions w l)))).
  { unfold run_actions. induction l as [| a l IH]; intros w Hw; cbn [fold_left];
      [exact Hw |].
    apply IH. destruct Hw as (Hlen & Hs).
    destruct (act_effect w a)
      as (_ & _ & _ & [E | [(rx & ry & _ & E) | (_ & _ & ax & ay & r & E)]]);
      rewrite E.
    - now split.
    - destruct (redrawn_lists (LivePage.set_ref rx ry (live w)))
        as (_ & _ & -> & -> & _).
      split; [exact Hlen |].
      rewrite plottable_redrawn. apply redrawn_table.
    - destruct (redrawn_lists (recorded ax ay r (live w)))
        as (_ & _ & -> & -> & _).
      split.
      + cbn [recorded act_x act_y LivePage.set_labels LivePage.append_act_y
               LivePage.append_act_x].
        rewrite !length_app, Hlen. reflexivity.
      + rewrite plottable_redrawn. apply redrawn_table. }
  destruct (H (startup c d)) as (Hlen & Hs); [split; reflexivity |].
  intros Href.
  assert (Hp : plottable (live (run_actions (startup c d) l)) = true)
    by (apply plottable_iff; auto).
  specialize (Hs Hp). unfold synced in Hs.
  split; [exact Hs |].
  rewrite Hs. unfold LivePage.rows_of. now rewrite length_map, length_seq.
Qed.

Lemma table_always_current_witness :
  table (live (run_actions (startup true bench_plc)
                 [Do (SetReference [decimal 0 1] []);
                  Do (SetReference [decimal 0 1; decimal 1 1]
                                   [decimal 0 1; decimal 2 1]);
                  Do Tick]))
  = LivePage.rows_of
      (live (run_actions (startup true bench_plc)
               [Do (SetReference [decimal 0 1] []);
                Do (SetReference [decimal 0 1; decimal 1 1]
                                 [decimal 0 1; decimal 2 1]);
                Do Tick]))
  /\ List.length
       (table (live (run_actions (startup true bench_plc)
                       [Do (SetReference [decimal 0 1] []);
                        Do (SetReference [decimal 0 1; decimal 1 1]
                                         [decimal 0 1; decimal 2 1]);
                        Do Tick]))) = 2%nat.
Proof.
  destruct (table_always_current true bench_plc
              [Do (SetReference [decimal 0 1] []);
               Do (SetReference [decimal 0 1; decimal 1 1]
                                [decimal 0 1; decimal 2 1]);
               Do Tick]) as (H1 & H2).
  - right. reflexivity.
  - split; [exact H1 | reflexivity].
Defined.

Lemma latest_app {A : Type} (l : list A) (a : A) : latest (l ++ [a]) = Some a.
Proof. unfold latest. now rewrite rev_app_distr. Qed.

(** X11. From the start of the application on, the X and Y readouts show
    the latest recorded sample, and show nothing exactly while the histories
    are empty. *)
Theorem readouts_show_latest (c : bool) (d : Device) (l : list Action) :
  let p := live (run_actions (startup c d) l) in
  xv p = latest (act_x p) /\ yv p = latest (act_y p).
Proof.
  cbn zeta.
  assert (H : forall w, readouts_latest (live w) ->
                        readouts_latest (live (run_actions w l))).
  { unfold run_actions. induction l as [| a l IH]; intros w Hw; cbn [fold_left];
      [exact Hw |].
    apply IH.
    destruct (act_effect w a)
      as (_ & _ & _ & [E | [(rx & ry & _ & E) | (_ & _ & ax & ay & r & E)]]);
      rewrite E; [exact Hw | |]; unfold readouts_latest.
    - destruct (redrawn_lists (LivePage.set_ref rx ry (live w)))
        as (_ & _ & -> & -> & -> & -> & _).
      exact Hw.
    - destruct (redrawn_lists (recorded ax ay r (live w)))
        as (_ & _ & -> & -> & -> & -> & _).
      cbn [recorded xv yv act_x act_y LivePage.set_labels
             LivePage.append_act_y LivePage.append_act_x].
      now rewrite !latest_app. }
  apply (H (startup c d)). split; reflexivity.
Qed.

Lemma read_plc_returns (reg : RegisterRef) (v : World) :
  online (plc v) (wire v) = true ->
  encodable (addr reg) = true ->
  exists r, read_plc reg v = (Ok r, with_wire (wire v ++ sent v reg) v).
Proof.
  intros Hon Ha.
  destruct (read_plc_effect reg v) as [(r & E & _) | (e & E & _ & _)];
    [eauto |].
  exfalso. rewrite read_plc_cases, Hon, Ha in E.
  destruct (connected v); [destruct (polls reg) |]; discriminate E.
Qed.

(** With the link up throughout and the three addresses fitting a frame,
    the three reads of a tick return. *)
Lemma reads_return_online (w : World) :
  (forall h, online (plc w) h = true) ->
  0 <= addr (x_encoder (CONFIG w)) <= 65535 ->
  0 <= addr (y_encoder (CONFIG w)) <= 65535 ->
  0 <= addr (run_bit (CONFIG w)) <= 65535 ->
  exists xr yr rn, reads_return w xr yr rn.
Proof.
  intros Hon Ax Ay Ar. apply encodable_range in Ax, Ay, Ar.
  unfold reads_return, run_read, y_read, x_read.
  destruct (read_plc_returns (x_encoder (CONFIG w)) w (Hon _) Ax) as (xr & E1).
  rewrite E1. cbn [fst snd].
  set (w1 := with_wire (wire w ++ sent w (x_encoder (CONFIG w))) w) in *.
  change (CONFIG w1) with (CONFIG w).
  destruct (read_plc_returns (y_encoder (CONFIG w)) w1 (Hon _) Ay) as (yr & E2).
  rewrite E2. cbn [fst snd].
  set (w2 := with_wire (wire w1 ++ sent w1 (y_encoder (CONFIG w))) w1) in *.
  change (CONFIG w2) with (CONFIG w).
  destruct (read_plc_returns (run_bit (CONFIG w)) w2 (Hon _) Ar) as (rn & E3).
  rewrite E3. cbn [fst]. now exists xr, yr, rn.
Qed.

(** X12. A tick only reads.  Whatever its outcome (a sample recorded, the
    tick abandoned, the division or a read failing) it appends to the wire
    at most three requests, all of them reads, and none when disconnected.
    When connected with three known tags, the link staying up and the three
    addresses unsigned 16-bit numbers, it sends exactly three, for the x
    encoder, the y encoder and the run bit in this order: the run bit is
    polled before the encoder values are looked at. *)
Theorem tick_only_reads (w : World) :
  exists l,
    wire (snd (LivePage.read_plc w)) = wire w ++ l
    /\ Forall is_read l
    /\ (List.length l <= 3)%nat
    /\ (connected w = false -> l = [])
    /\ (connected w = true ->
        tag_in (type (x_encoder (CONFIG w))) SettingsPage.items = true ->
        tag_in (type (y_encoder (CONFIG w))) SettingsPage.items = true ->
        tag_in (type (run_bit (CONFIG w))) SettingsPage.items = true ->
        (forall h, online (plc w) h = true) ->
        0 <= addr (x_encoder (CONFIG w)) <= 65535 ->
        0 <= addr (y_encoder (CONFIG w)) <= 65535 ->
        0 <= addr (run_bit (CONFIG w)) <= 65535 ->
        exists q1 q2 q3,
          l = [q1; q2; q3]
          /\ address q1 = addr (x_encoder (CONFIG w))
          /\ address q2 = addr (y_encoder (CONFIG w))
          /\ address q3 = addr (run_bit (CONFIG w))).
Proof.
  destruct (tick_frame w) as (l & p & E & Fr & _ & Ll & Hd & Hall).
  exists l. rewrite E. cbn [wire with_live with_wire].
  split; [reflexivity |]. split; [exact Fr |]. split; [exact Ll |].
  split; [exact Hd |].
  intros Hc Hx Hy Hrn Hon Ax Ay Ar.
  rewrite (Hall (reads_return_online w Hon Ax Ay Ar)).
  unfold tick_polls, sent. rewrite Hc.
  destruct (polls_address (x_encoder (CONFIG w))) as (Fx & _).
  destruct (polls_address (y_encoder (CONFIG w))) as (Fy & _).
  destruct (polls_address (run_bit (CONFIG w))) as (Fn & _).
  destruct (polls_known _ Hx) as (q1 & E1). destruct (polls_known _ Hy) as (q2 & E2).
  destruct (polls_known _ Hrn) as (q3 & E3).
  rewrite E1 in *. rewrite E2 in *. rewrite E3 in *.
  exists q1, q2, q3. split; [reflexivity |].
  inversion Fx as [| ? ? (_ & _ & A1) _]. inversion Fy as [| ? ? (_ & _ & A2) _].
  inversion Fn as [| ? ? (_ & _ & A3) _]. auto.
Qed.

Lemma tick_only_reads_witness :
  wire (snd (LivePage.read_plc (startup true silent_plc)))
  = [ReadHoldingRegisters 100 1 1; ReadHoldingRegisters 102 1 1;
     ReadCoils 12 1 1]
  /\ wire (snd (LivePage.read_plc (startup false silent_plc))) = [].
Proof.
  destruct (tick_only_reads (startup true silent_plc))
    as (l & E & _ & _ & _ & H3).
  destruct (H3 eq_refl eq_refl eq_refl eq_refl (fun _ => eq_refl))
    as (q1 & q2 & q3 & El & _); [cbn; lia .. |].
  destruct (tick_only_reads (startup false silent_plc))
    as (l' & E' & _ & _ & H0 & _).
  split.
  - reflexivity.
  - rewrite E', (H0 eq_refl). reflexivity.
Defined.

(** X13. Only the two encoder reads gate a tick.  When both give values
    and the scale factors are not zero, the sample is recorded whatever the
    run-bit read returned, a failed read included; the run label then says
    ON exactly when the run-bit read returned something true.  The tick
    returns without raising when moreover the reference can be plotted and
    the histories were equally long. *)
Theorem run_bit_does_not_gate (w : World) (x y : value) (rn : option value) :
  fst (x_read w) = Ok (Some x) ->
  fst (y_read w) = Ok (Some y) ->
  fst (run_read w) = Ok rn ->
  x_ppr (CONFIG w) <> 0 ->
  y_ppr (CONFIG w) <> 0 ->
  List.length (act_x (live (snd (LivePage.read_plc w))))
  = S (List.length (act_x (live w)))
  /\ List.length (act_y (live (snd (LivePage.read_plc w))))
     = S (List.length (act_y (live w)))
  /\ run (live (snd (LivePage.read_plc w)))
     = (if truthy rn then "RUN ON" else "RUN OFF")
  /\ (ref_x (live w) = [] \/
      List.length (ref_x (live w)) = List.length (ref_y (live w)) ->
      List.length (act_x (live w)) = List.length (act_y (live w)) ->
      fst (LivePage.read_plc w) = Ok tt).
Proof.
  intros Hx Hy Hr Hpx Hpy.
  destruct (tick_live w)
    as [(_ & Hn) | (x' & y' & rn' & ax & ay & Hr' & _ & _ & _ & _ & _ & E & Eo)].
  - exfalso. apply Hn. exists x, y, rn. now repeat split.
  - assert (Hret : reads_return w (Some x) (Some y) rn) by now repeat split.
    destruct (reads_return_unique _ _ _ _ _ _ _ Hret Hr') as (_ & _ & <-).
    rewrite E, Eo.
    destruct (redrawn_lists (recorded ax ay (run_label rn) (live w)))
      as (_ & _ & -> & -> & _ & _ & ->).
    cbn [recorded act_x act_y run LivePage.set_labels LivePage.append_act_y
           LivePage.append_act_x].
    rewrite !length_app. cbn [List.length].
    split; [lia |]. split; [lia |]. split; [reflexivity |].
    intros Href Hlen.
    assert (Hp : plottable (recorded ax ay (run_label rn) (live w)) = true).
    { apply plottable_iff.
      cbn [recorded ref_x ref_y act_x act_y LivePage.set_labels
             LivePage.append_act_y LivePage.append_act_x].
      split; [exact Href |]. right. rewrite !length_app, Hlen. reflexivity. }
    now rewrite Hp.
Qed.

Lemma run_bit_does_not_gate_witness :
  act_x (live (snd (LivePage.read_plc (startup true bench_no_run_plc))))
  = [decimal 5 10]
  /\ run (live (snd (LivePage.read_plc (startup true bench_no_run_plc))))
     = "RUN OFF"
  /\ run (live (snd (LivePage.read_plc (startup true bench_plc)))) = "RUN ON"
  /\ fst (LivePage.read_plc (startup true bench_no_run_plc)) = Ok tt.
Proof.
  destruct (run_bit_does_not_gate (startup true bench_no_run_plc)
              (VInt 500) (VInt 250) None eq_refl eq_refl eq_refl)
    as (_ & _ & H1 & H3); [discriminate .. |].
  destruct (run_bit_does_not_gate (startup true bench_plc)
              (VInt 500) (VInt 250) (Some (VBool true)) eq_refl eq_refl eq_refl)
    as (_ & _ & H2 & _); [discriminate .. |].
  split; [reflexivity | split; [exact H1 | split; [exact H2 |]]].
  apply H3; [left |]; reflexivity.
Defined.

(** ** Connecting *)

(** X14. What [connect_plc] does.  It changes nothing in the world but the
    connection flag.  When no listed port matches, or the matching port has
    an empty device name, the flag becomes false and the global client is
    left as it was; when a port with a device name matches, the client
    becomes the RTU client on that port (baud rate of the configuration,
    even parity, one stop bit, eight data bits, one second timeout) and the
    flag is what its [connect()] answers.  Whenever the flag is false
    afterwards, no later run sends anything or records a sample. *)
Theorem connect_plc_outcome (comports : list ListPortInfo)
    (connect : Serial.Client -> bool) (a : App) :
  let a' := connect_plc comports connect a in
  (CONFIG (world a') = CONFIG (world a)
   /\ plc (world a') = plc (world a)
   /\ wire (world a') = wire (world a)
   /\ live (world a') = live (world a))
  /\ (no_port (auto_port comports) = true ->
      connected (world a') = false /\ client_obj a' = client_obj a)
  /\ (forall p,
        auto_port comports = Some p ->
        p <> "" ->
        client_obj a'
        = Some (Serial.mkClient "rtu" p (baudrate (CONFIG (world a))) "E" 1 8 1)
        /\ connected (world a')
           = connect (Serial.mkClient "rtu" p (baudrate (CONFIG (world a)))
                        "E" 1 8 1))
  /\ (connected (world a') = false ->
      forall l,
        wire (run_actions (world a') l) = wire (world a)
        /\ act_x (live (run_actions (world a') l)) = act_x (live (world a))
        /\ act_y (live (run_actions (world a') l)) = act_y (live (world a))).
Proof.
  cbn zeta.
  assert (Hframe : CONFIG (world (connect_plc comports connect a)) = CONFIG (world a)
                   /\ plc (world (connect_plc comports connect a)) = plc (world a)
                   /\ wire (world (connect_plc comports connect a)) = wire (world a)
                   /\ live (world (connect_plc comports connect a)) = live (world a)).
  { unfold connect_plc. destruct (no_port (auto_port comports)); repeat split. }
  split; [exact Hframe |]. split; [| split].
  - intros E. unfold connect_plc. rewrite E. split; reflexivity.
  - intros p Hp Hne. unfold connect_plc. rewrite Hp.
    assert (E : no_port (Some p) = false)
      by (destruct p; [congruence | reflexivity]).
    rewrite E. split; reflexivity.
  - intros Hc l. destruct Hframe as (_ & _ & Hw & Hl).
    destruct (silent_run _ l Hc) as (_ & H1 & H2 & H3 & _).
    rewrite H1, H2, H3, Hw, Hl. repeat split.
Qed.

Lemma connect_plc_outcome_witness :
  connected (world (connect_plc [mkPort "COM1" "Bluetooth link"] (fun _ => true)
                      (mkApp (startup true bench_plc) None))) = false
  /\ connected (world (connect_plc [mkPort "" "USB-SERIAL CH340"] (fun _ => true)
                         (mkApp (startup true bench_plc) None))) = false
  /\ client_obj (connect_plc [mkPort "COM4" "USB-SERIAL CH340"] (fun _ => true)
                   (mkApp (startup false bench_plc) None))
     = Some (Serial.mkClient "rtu" "COM4" 9600 "E" 1 8 1)
  /\ wire (run_actions
             (world (connect_plc [mkPort "COM1" "Bluetooth link"] (fun _ => true)
                       (mkApp (startup true bench_plc) None)))
             [Do Tick; Do (Zero (mkReg "M" 30))]) = [].
Proof.
  destruct (connect_plc_outcome [mkPort "COM1" "Bluetooth link"] (fun _ => true)
              (mkApp (startup true bench_plc) None)) as (_ & H1 & _ & H4).
  destruct (connect_plc_outcome [mkPort "" "USB-SERIAL CH340"] (fun _ => true)
              (mkApp (startup true bench_plc) None)) as (_ & H2 & _).
  destruct (connect_plc_outcome [mkPort "COM4" "USB-SERIAL CH340"] (fun _ => true)
              (mkApp (startup false bench_plc) None)) as (_ & _ & H3 & _).
  destruct (H1 eq_refl) as (C1 & _). destruct (H2 eq_refl) as (C2 & _).
  destruct (H3 "COM4" eq_refl) as (C3 & _); [discriminate |].
  destruct (H4 C1 [Do Tick; Do (Zero (mkReg "M" 30))]) as (W & _).
  split; [exact C1 | split; [exact C2 | split; [exact C3 | exact W]]].
Defined.

(** ** Authoring a profile *)

Section ProfileFacts.

Variable f : string -> option float.

Lemma profile_fold (cells : Cells) :
  forall acc,
    fold_left (profile_row f) cells acc
    = (fst acc ++ flat_map (col_x f) cells, snd acc ++ flat_map (col_y f) cells).
Proof.
  induction cells as [| r cells IH]; intros [ax ay]; cbn [fold_left flat_map fst snd].
  - now rewrite !app_nil_r.
  - rewrite IH. unfold profile_row, col_x, col_y.
    destruct r as [[x |] [y |]]; cbn [fst snd app]; try reflexivity.
    destruct (f x) as [fx |]; [destruct (f y) as [fy |] |];
      cbn [fst snd app]; rewrite <- ?app_assoc; reflexivity.
Qed.

Lemma get_profile_cols (cells : Cells) :
  get_profile f cells = (flat_map (col_x f) cells, flat_map (col_y f) cells).
Proof. unfold get_profile. now rewrite profile_fold. Qed.

Lemma cols_lengths (cells : Cells) :
  List.length (flat_map (col_x f) cells)
  = List.length (filter (counts_x f) cells)
  /\ List.length (flat_map (col_x f) cells)
     = (List.length (flat_map (col_y f) cells)
        + List.length (filter (half_row f) cells))%nat
  /\ (List.length (flat_map (col_x f) cells) <= List.length cells)%nat.
Proof.
  induction cells as [| r cells (IH1 & IH2 & IH3)];
    [repeat split; cbn; lia |].
  change (flat_map (col_x f) (r :: cells))
    with (col_x f r ++ flat_map (col_x f) cells).
  change (flat_map (col_y f) (r :: cells))
    with (col_y f r ++ flat_map (col_y f) cells).
  cbn [filter]. rewrite !length_app.
  unfold col_x at 1 3 5, col_y at 1, counts_x at 1, half_row at 1.
  destruct r as [[x |] [y |]]; cbn [List.length]; try (repeat split; lia).
  destruct (f x) as [fx |]; [destruct (f y) as [fy |] |];
    cbn [List.length]; repeat split; lia.
Qed.

Lemma cols_points (cells : Cells) :
  (forall r, In r cells -> half_row f r = false) ->
  flat_map (col_x f) cells = map fst (points_of f cells)
  /\ flat_map (col_y f) cells = map snd (points_of f cells).
Proof.
  induction cells as [| r cells IH]; intros H; [split; reflexivity |].
  destruct IH as (IH1 & IH2); [intros r' Hr'; apply H; now right |].
  pose proof (H r (or_introl eq_refl)) as Hr.
  change (flat_map (col_x f) (r :: cells))
    with (col_x f r ++ flat_map (col_x f) cells).
  change (flat_map (col_y f) (r :: cells))
    with (col_y f r ++ flat_map (col_y f) cells).
  cbn [points_of]. rewrite IH1, IH2.
  unfold col_x, col_y, point_of, half_row in *.
  destruct r as [[x |] [y |]]; try (split; reflexivity).
  destruct (f x) as [fx |]; [destruct (f y) as [fy |] |];
    try discriminate Hr; split; reflexivity.
Qed.

End ProfileFacts.

Lemma get_profile_cols_lengths (f : string -> option float) (cells : Cells) :
  List.length (fst (get_profile f cells))
  = List.length (filter (counts_x f) cells)
  /\ List.length (fst (get_profile f cells))
     = (List.length (snd (get_profile f cells))
        + List.length (filter (half_row f) cells))%nat
  /\ (List.length (fst (get_profile f cells)) <= List.length cells)%nat.
Proof. rewrite get_profile_cols. apply cols_lengths. Qed.

(** X15. The two columns [get_profile] returns can differ in length.  The X
    column has one value for every row that has both cells and whose first
    cell reads as a float; the Y column misses one value for each such row
    whose second cell does not read as a float. *)
Theorem get_profile_lengths (f : string -> option float) (cells : Cells) :
  List.length (fst (get_profile f cells))
  = List.length (filter (counts_x f) cells)
  /\ List.length (fst (get_profile f cells))
     = (List.length (snd (get_profile f cells))
        + List.length (filter (half_row f) cells))%nat
  /\ (List.length (fst (get_profile f cells)) <= List.length cells)%nat.
Proof. apply get_profile_cols_lengths. Qed.

(** X16. When no row has a readable first cell next to an unreadable second
    one, [get_profile] returns the points of the table in row order, X and Y
    of each point at the same position; rows with a missing or unreadable
    cell are skipped. *)
Theorem get_profile_points (f : string -> option float) (cells : Cells) :
  (forall r, In r cells -> half_row f r = false) ->
  fst (get_profile f cells) = map fst (points_of f cells)
  /\ snd (get_profile f cells) = map snd (points_of f cells)
  /\ List.length (fst (get_profile f cells))
     = List.length (snd (get_profile f cells)).
Proof.
  intros H. rewrite get_profile_cols. cbn [fst snd].
  destruct (cols_points f cells H) as (-> & ->).
  repeat split. now rewrite !length_map.
Qed.

Lemma get_profile_points_witness :
  get_profile whole_number
    [(Some "0", Some "0"); (None, Some "7"); (Some "x", Some "1");
     (Some "1", Some "2")]
  = ([decimal 0 1; decimal 1 1], [decimal 0 1; decimal 2 1]).
Proof.
  destruct (get_profile_points whole_number
              [(Some "0", Some "0"); (None, Some "7"); (Some "x", Some "1");
               (Some "1", Some "2")]) as (H1 & H2 & _).
  - intros r [<- | [<- | [<- | [<- | []]]]]; reflexivity.
  - rewrite (surjective_pairing (get_profile whole_number _)), H1, H2.
    reflexivity.
Defined.

(** X17. [save_csv] writes nothing for an empty profile: it ends in the warning
    exactly when no row has both cells with a first cell that reads as a
    float.  Otherwise it ends without writing when the file dialog is
    cancelled, and else hands the two columns of [get_profile] to the
    writer under the chosen path. *)
Theorem save_csv_outcome (f : string -> option float) (cells : Cells)
    (path : string) :
  (save_csv f cells path = WarnEmpty
   <-> forall r, In r cells -> counts_x f r = false)
  /\ (forall p rx ry,
        save_csv f cells path = ToCsv p rx ry ->
        p = path /\ path <> "" /\ rx <> []
        /\ (rx, ry) = get_profile f cells)
  /\ ((exists r, In r cells /\ counts_x f r = true) ->
      path <> "" ->
      save_csv f cells path
      = ToCsv path (fst (get_profile f cells)) (snd (get_profile f cells))).
Proof.
  assert (Hnil : fst (get_profile f cells) = []
                 <-> forall r, In r cells -> counts_x f r = false).
  { pose proof (cols_lengths f cells) as (Hl & _).
    rewrite get_profile_cols. cbn [fst]. split.
    - intros E r Hr. rewrite E in Hl. cbn in Hl.
      destruct (counts_x f r) eqn:Er; [| reflexivity].
      assert (Hin : In r (filter (counts_x f) cells))
        by (apply filter_In; now split).
      destruct (filter (counts_x f) cells); [contradiction | discriminate Hl].
    - intros H.
      assert (E : filter (counts_x f) cells = []).
      { clear Hl. induction cells as [| r cells IH]; [reflexivity |].
        cbn [filter]. rewrite (H r (or_introl eq_refl)).
        apply IH. intros r' Hr'. apply H. now right. }
      rewrite E in Hl. now destruct (flat_map (col_x f) cells). }
  unfold save_csv.
  destruct (fst (get_profile f cells)) as [| v rx] eqn:Ex.
  - split; [| split].
    + split; [intros _; now apply Hnil | reflexivity].
    + discriminate.
    + intros (r & Hr & Hc) _. exfalso.
      rewrite (proj1 Hnil eq_refl r Hr) in Hc. discriminate Hc.
  - split; [| split].
    + split.
      * destruct (String.eqb path ""); discriminate.
      * intros H. apply Hnil in H. discriminate H.
    + intros p rx' ry' H.
      destruct (String.eqb path "") eqn:Ep; [discriminate H |].
      injection H as <- <- <-. apply String.eqb_neq in Ep.
      repeat split; [exact Ep | discriminate |].
      rewrite <- Ex. now destruct (get_profile f cells).
    + intros _ Hp. apply String.eqb_neq in Hp. now rewrite Hp.
Qed.

Lemma save_csv_outcome_witness :
  save_csv whole_number [(Some "x", Some "1"); (Some "3", None)] "p.csv"
  = WarnEmpty
  /\ save_csv whole_number [(Some "1", Some "2")] "p.csv"
     = ToCsv "p.csv" [decimal 1 1] [decimal 2 1].
Proof.
  destruct (save_csv_outcome whole_number
              [(Some "x", Some "1"); (Some "3", None)] "p.csv") as (H1 & _).
  destruct (save_csv_outcome whole_number [(Some "1", Some "2")] "p.csv")
    as (_ & _ & H2).
  split.
  - apply H1. intros r [<- | [<- | []]]; reflexivity.
  - apply H2; [| discriminate].
    exists (Some "1", Some "2"). split; [now left | reflexivity].
Defined.

(** X18. A row whose first cell reads as a float and whose second does not
    leaves the authored reference misaligned, and taking such a profile
    over fails half way: [create_profile] raises [ValueError] out of the
    plot, with the two columns of [get_profile] already stored as reference,
    the Y list shorter than the X list, while the histories and the table
    are as they were.  A dialog that is not accepted changes nothing. *)
Theorem create_profile_half_row (f : string -> option float) (cells : Cells)
    (w : World) :
  ((exists r, In r cells /\ half_row f r = true) ->
   fst (create_profile f cells true w) = Raise ValueError
   /\ let p := live (snd (create_profile f cells true w)) in
      ref_x p = fst (get_profile f cells)
      /\ ref_y p = snd (get_profile f cells)
      /\ act_x p = act_x (live w)
      /\ act_y p = act_y (live w)
      /\ (List.length (ref_y p) < List.length (ref_x p))%nat
      /\ table p = table (live w))
  /\ create_profile f cells false w = (Ok tt, w).
Proof.
  split; [| reflexivity].
  intros (r0 & Hin & Hhalf). cbn zeta.
  unfold create_profile. rewrite set_reference_cases.
  set (rx := fst (get_profile f cells)). set (ry := snd (get_profile f cells)).
  assert (Hlt : (List.length ry < List.length rx)%nat).
  { destruct (get_profile_cols_lengths f cells) as (_ & H & _).
    fold rx ry in H. rewrite H.
    assert (Hne : In r0 (filter (half_row f) cells))
      by (apply filter_In; now split).
    destruct (filter (half_row f) cells); [contradiction | cbn; lia]. }
  assert (Hp : plottable (LivePage.set_ref rx ry (live w)) = false).
  { destruct (plottable (LivePage.set_ref rx ry (live w))) eqn:E; [| reflexivity].
    apply plottable_iff in E. destruct E as ([E | E] & _);
      cbn [LivePage.set_ref ref_x ref_y] in E.
    - rewrite E in Hlt. cbn in Hlt. lia.
    - lia. }
  unfold redrawn. rewrite Hp. cbn [fst snd live with_live].
  repeat split. exact Hlt.
Qed.

Lemma create_profile_half_row_witness :
  fst (create_profile whole_number
         [(Some "1", Some "2"); (Some "3", Some "y"); (Some "5", Some "6")]
         true (startup false silent_plc)) = Raise ValueError
  /\ ref_x (live (snd (create_profile whole_number
                         [(Some "1", Some "2"); (Some "3", Some "y");
                          (Some "5", Some "6")]
                         true (startup false silent_plc))))
     = [decimal 1 1; decimal 3 1; decimal 5 1]
  /\ ref_y (live (snd (create_profile whole_number
                         [(Some "1", Some "2"); (Some "3", Some "y");
                          (Some "5", Some "6")]
                         true (startup false silent_plc))))
     = [decimal 2 1; decimal 6 1].
Proof.
  destruct (create_profile_half_row whole_number
              [(Some "1", Some "2"); (Some "3", Some "y"); (Some "5", Some "6")]
              (startup false silent_plc)) as (H & _).
  destruct H as (Hr & _).
  - exists (Some "3", Some "y"). split; [right; now left | reflexivity].
  - split; [exact Hr | split; reflexivity].
Defined.

(** ** Ticks that cannot record *)

Lemma tick_keeps_CONFIG (w : World) :
  CONFIG (snd (LivePage.read_plc w)) = CONFIG w.
Proof. destruct (tick_frame w) as (l & p & -> & _). reflexivity. Qed.

(** X19. A zero scale factor stops the recording.  While [x_ppr] or
    [y_ppr] is 0, a tick never changes the live page or the configuration,
    so histories, readouts and table stay frozen until the factor is
    changed.  When its three reads return, the tick is abandoned without
    error if an encoder read gave [None], and raises [ZeroDivisionError]
    before anything is appended if both gave values. *)
Theorem zero_scale_stops_recording (w : World) :
  x_ppr (CONFIG w) = 0 \/ y_ppr (CONFIG w) = 0 ->
  live (snd (LivePage.read_plc w)) = live w
  /\ CONFIG (snd (LivePage.read_plc w)) = CONFIG w
  /\ (forall xr yr rn,
        reads_return w xr yr rn ->
        (xr = None \/ yr = None -> fst (LivePage.read_plc w) = Ok tt)
        /\ (forall x y, xr = Some x -> yr = Some y ->
            fst (LivePage.read_plc w) = Raise ZeroDivisionError)).
Proof.
  intros H. split; [| split; [apply tick_keeps_CONFIG |]].
  - destruct (tick_live w) as [(E & _) | (x & y & rn & ax & ay & _ & Px & Py & _)];
      [exact E |].
    destruct H as [H | H]; contradiction.
  - intros xr yr rn Hr.
    destruct (tick_run w)
      as [(xr' & yr' & rn' & Hr' & _ & E) | (e & l & _ & _ & _ & _ & _ & Hno)];
      [| destruct (Hno _ _ _ Hr)].
    destruct (reads_return_unique _ _ _ _ _ _ _ Hr Hr') as (<- & <- & <-).
    rewrite E. split.
    + intros Hn. now rewrite (after_reads_none xr yr rn _ Hn).
    + intros x y -> ->.
      now rewrite (after_reads_zero x y rn
                     (with_wire (wire w ++ tick_polls w) w) H).
Qed.

Lemma zero_scale_stops_recording_witness :
  fst (LivePage.read_plc
         (snd (MoreSettingsPage.save "1000" "0" (startup true bench_plc))))
  = Raise ZeroDivisionError
  /\ act_x (live (snd (LivePage.read_plc
                         (snd (MoreSettingsPage.save "1000" "0"
                                 (startup true bench_plc)))))) = [].
Proof.
  destruct (zero_scale_stops_recording
              (snd (MoreSettingsPage.save "1000" "0" (startup true bench_plc)))
              (or_intror eq_refl)) as (Hl & _ & Ho).
  destruct (Ho (Some (VInt 500)) (Some (VInt 250)) (Some (VBool true)))
    as (_ & Hz); [repeat split |].
  split; [exact (Hz _ _ eq_refl eq_refl) | now rewrite Hl].
Defined.

(** X20. A type tag outside D, C, T, M, Y, X is not rejected anywhere: for
    such an entry [read_plc] returns [None] without sending anything and
    without calling the client, even when connected, tags being compared
    letter for letter.  So a tick whose x encoder or y encoder has such a
    tag never records a sample, and returns without error when its reads
    return. *)
Theorem unknown_tag_reads_nothing (reg : RegisterRef) (w : World) :
  tag_in (type reg) SettingsPage.items = false ->
  read_plc reg w = (Ok None, w)
  /\ (reg = x_encoder (CONFIG w) \/ reg = y_encoder (CONFIG w) ->
      live (snd (LivePage.read_plc w)) = live w
      /\ ((exists xr yr rn, reads_return w xr yr rn) ->
          fst (LivePage.read_plc w) = Ok tt)).
Proof.
  intros Ht.
  assert (Hpolls : polls reg = []).
  { unfold polls. unfold tag_in, SettingsPage.items in *. cbn [existsb] in *.
    repeat match goal with
           | H : (_ || _)%bool = false |- _ =>
               apply orb_false_iff in H; destruct H
           end.
    repeat match goal with
           | H : ?a = false |- _ => rewrite H
           end.
    reflexivity. }
  assert (Hread : forall v, read_plc reg v = (Ok None, v)).
  { intros v. rewrite read_plc_cases, Hpolls. now destruct (connected v). }
  split; [apply Hread |].
  intros Hreg.
  assert (Hnone : forall xr yr rn, reads_return w xr yr rn -> xr = None \/ yr = None).
  { intros xr yr rn (E1 & E2 & _). destruct Hreg as [-> | ->].
    - left. unfold x_read in E1. rewrite Hread in E1. now injection E1.
    - right. unfold y_read, x_read in E2.
      destruct (read_plc_effect (x_encoder (CONFIG w)) w)
        as [(r & F & _) | (e & F & _)]; rewrite F in E2;
        cbn [snd CONFIG with_wire] in E2; rewrite Hread in E2;
        now injection E2. }
  split.
  - destruct (tick_live w) as [(E & _) | (x & y & rn & ax & ay & Hr & _)];
      [exact E |].
    destruct (Hnone _ _ _ Hr) as [H | H]; discriminate H.
  - intros (xr & yr & rn & Hr).
    destruct (tick_run w)
      as [(xr' & yr' & rn' & Hr' & _ & E) | (e & l & _ & _ & _ & _ & _ & Hno)];
      [| destruct (Hno _ _ _ Hr)].
    rewrite E. now rewrite (after_reads_none xr' yr' rn' _ (Hnone _ _ _ Hr')).
Qed.

Lemma unknown_tag_reads_nothing_witness :
  read_plc (mkReg "d" 100) (startup true bench_plc)
  = (Ok None, startup true bench_plc).
Proof.
  apply (unknown_tag_reads_nothing (mkReg "d" 100) (startup true bench_plc)).
  reflexivity.
Defined.

(** ** Exporting a profile and importing it again *)

Lemma split_comma_pair (a b : string) :
  has_comma a = false ->
  has_comma b = false ->
  split_comma (a ++ "," ++ b)%string = [a; b].
Proof.
  intros Ha Hb.
  assert (Hplain : split_comma b = [b]).
  { clear Ha. induction b as [| c b IH]; [reflexivity |].
    cbn [has_comma] in Hb. apply orb_false_iff in Hb. destruct Hb as (Hc & Hb).
    cbn [split_comma]. now rewrite Hc, (IH Hb). }
  induction a as [| c a IH].
  - cbn. now rewrite Hplain.
  - cbn [has_comma] in Ha. apply orb_false_iff in Ha. destruct Ha as (Hc & Ha).
    cbn [String.append split_comma]. rewrite Hc.
    change (split_comma (a ++ String "," b)%string)
      with (split_comma (a ++ "," ++ b)%string).
    now rewrite (IH Ha).
Qed.

Lemma line_not_blank (a b : string) :
  String.eqb (a ++ "," ++ b)%string "" = false.
Proof. now destruct a. Qed.

Lemma combine_fst_snd {A B : Type} (l : list A) :
  forall l' : list B,
    List.length l = List.length l' ->
    map fst (combine l l') = l /\ map snd (combine l l') = l'.
Proof.
  induction l as [| a l IH]; intros [| b l'] H; try discriminate H.
  - split; reflexivity.
  - cbn. injection H as H. destruct (IH l' H) as (-> & ->). split; reflexivity.
Qed.

Lemma plain_has_no_comma (s : string) :
  has_special s = false -> has_comma s = false.
Proof.
  induction s as [| c s IH]; [reflexivity |].
  cbn [has_special has_comma]. intros H.
  apply orb_false_iff in H. destruct H as (Hc & Hs).
  rewrite (IH Hs), orb_false_r.
  destruct (Ascii.eqb_spec c ",") as [-> | _]; [discriminate Hc | reflexivity].
Qed.

(** The rows a table was written from are read back, field by field. *)
Lemma read_rows_written (cell : float -> string)
    (number : string -> option float) (R : float -> float -> Prop)
    (rows : list (float * float)) :
  (forall v, In v (map fst rows) \/ In v (map snd rows) ->
     has_special (cell v) = false
     /\ exists v', number (cell v) = Some v' /\ R v v') ->
  exists xs ys,
    read_rows number
      (map (fun r => (cell (fst r) ++ "," ++ cell (snd r))%string) rows)
    = Some (xs, ys)
    /\ Forall2 R (map fst rows) xs
    /\ Forall2 R (map snd rows) ys.
Proof.
  induction rows as [| [x y] rows IH]; intros H.
  - exists [], []. repeat split; constructor.
  - destruct IH as (xs & ys & E & Fx & Fy).
    { intros v [Hv | Hv]; apply H; [left | right]; now right. }
    destruct (H x) as (Cx & x' & Nx & Rx); [left; now left |].
    destruct (H y) as (Cy & y' & Ny & Ry); [right; now left |].
    exists (x' :: xs), (y' :: ys).
    cbn [map read_rows fst snd].
    apply plain_has_no_comma in Cx, Cy.
    rewrite line_not_blank, (split_comma_pair _ _ Cx Cy), Nx, Ny, E.
    repeat split; now constructor.
Qed.

Lemma endswith_not_empty (path suffix : string) :
  suffix <> "" -> endswith path suffix = true -> path <> "".
Proof.
  intros Hs H ->. unfold endswith in H.
  destruct suffix as [| c s]; [congruence |]. discriminate H.
Qed.

(** The empty profile does not make the round trip: [save_csv] ends in the
    warning, no file is written, and there is no table to import. *)
Lemma empty_profile_not_exported :
  get_profile whole_number [] = ([], [])
  /\ save_csv whole_number [] "profile.csv" = WarnEmpty
  /\ export whole_number whole_cell [] "profile.csv" no_files = Ok no_files
  /\ open_file whole_field "profile.csv" no_files = None.
Proof. repeat split. Qed.

(** C9, as the code has it. A profile with no point is not exported.  For
    every profile with at least one point and X and Y columns of the same
    length, [save_csv] with a chosen path ending in ".csv" writes a table
    under the header labels Reference_X and Reference_Y with one line per
    point, and [open_file] on that path makes the reference the two columns
    read back from it; the columns read back agree with the original ones
    value by value, up to the tolerance [R] within which the table reader
    reads back the text the table writer prints for each value, that text
    being a plain field (no comma, quote or line break). *)
Theorem profile_round_trip (float_of_text : string -> option float)
    (cell : float -> string) (number : string -> option float)
    (R : float -> float -> Prop) (cells : Cells) (path : string)
    (fs : Files) (w : World) :
  let rx := fst (get_profile float_of_text cells) in
  let ry := snd (get_profile float_of_text cells) in
  rx <> [] ->
  List.length rx = List.length ry ->
  endswith path ".csv" = true ->
  (forall v, In v rx \/ In v ry ->
     has_special (cell v) = false
     /\ exists v', number (cell v) = Some v' /\ R v v') ->
  exists fs' body xs ys,
    export float_of_text cell cells path fs = Ok fs'
    /\ fs' path = Some ("Reference_X,Reference_Y" :: body)
    /\ List.length body = List.length rx
    /\ open_file number path fs' = Some (LivePage.set_reference xs ys)
    /\ Forall2 R rx xs
    /\ Forall2 R ry ys
    /\ ref_x (live (snd (LivePage.set_reference xs ys w))) = xs
    /\ ref_y (live (snd (LivePage.set_reference xs ys w))) = ys.
Proof.
  cbn zeta. intros Hne Hlen Hcsv Hcells.
  set (rx := fst (get_profile float_of_text cells)) in *.
  set (ry := snd (get_profile float_of_text cells)) in *.
  assert (Hpath : String.eqb path "" = false).
  { apply String.eqb_neq. apply (endswith_not_empty path ".csv"); [discriminate |].
    exact Hcsv. }
  assert (Hsave : save_csv float_of_text cells path = ToCsv path rx ry).
  { unfold save_csv. fold rx ry. destruct rx; [congruence |]. now rewrite Hpath. }
  destruct (combine_fst_snd rx ry Hlen) as (Hfst & Hsnd).
  destruct (read_rows_written cell number R (combine rx ry))
    as (xs & ys & Eread & Fx & Fy).
  { rewrite Hfst, Hsnd. exact Hcells. }
  rewrite Hfst in Fx. rewrite Hsnd in Fy.
  exists (write_file path (to_csv cell (combine rx ry)) fs),
    (map (fun r => (cell (fst r) ++ "," ++ cell (snd r))%string) (combine rx ry)),
    xs, ys.
  split; [| split; [| split; [| split; [| split; [exact Fx | split; [exact Fy |]]]]]].
  - unfold export, DataFrame. rewrite Hsave.
    apply Nat.eqb_eq in Hlen. now rewrite Hlen.
  - unfold write_file. now rewrite String.eqb_refl.
  - rewrite length_map, length_combine, <- Hlen. apply Nat.min_id.
  - unfold open_file, write_file. rewrite Hcsv, String.eqb_refl.
    unfold to_csv, read_csv. now rewrite Eread.
  - rewrite set_reference_cases. cbn [snd live with_live].
    destruct (redrawn_lists (LivePage.set_ref xs ys (live w))) as (-> & -> & _).
    split; reflexivity.
Qed.

Lemma profile_round_trip_witness :
  exists fs',
    export whole_number whole_cell
      [(Some "0", Some "0"); (Some "1", Some "2"); (Some "-3", Some "40")]
      "profile.csv" no_files = Ok fs'
    /\ fs' "profile.csv"
       = Some ["Reference_X,Reference_Y"; "0.0,0.0"; "1.0,2.0"; "-3.0,40.0"]
    /\ open_file whole_field "profile.csv" fs'
       = Some (LivePage.set_reference
                 [decimal 0 1; decimal 1 1; decimal (-3) 1]
                 [decimal 0 1; decimal 2 1; decimal 40 1]).
Proof.
  destruct (profile_round_trip whole_number whole_cell whole_field eq
              [(Some "0", Some "0"); (Some "1", Some "2"); (Some "-3", Some "40")]
              "profile.csv" no_files (startup false silent_plc))
    as (fs' & body & xs & ys & E & _).
  - discriminate.
  - reflexivity.
  - reflexivity.
  - intros v [[<- | [<- | [<- | []]]] | [<- | [<- | [<- | []]]]];
      (split; [reflexivity | eexists; split; reflexivity]).
  - exists fs'. split; [exact E |].
    injection E as <-. split; reflexivity.
Defined.

(** ** Exceptions of the client *)

(** X21. Nothing in the program catches what the Modbus client raises.
    While connected, a read of an entry with a known tag raises
    [ConnectionException] when the link is down and [struct.error] when the
    address is not an unsigned 16-bit number, and so does the write of
    [write_plc_bit] for a coil entry; in each case nothing is sent and the
    world is as it was.  An exception raised by the first read of a tick
    leaves the tick at once, with the world as it was. *)
Theorem client_errors_propagate (reg : RegisterRef) (w : World) :
  connected w = true ->
  (tag_in (type reg) SettingsPage.items = true ->
   (online (plc w) (wire w) = false ->
    0 <= addr reg <= 65535 ->
    read_plc reg w = (Raise ConnectionException, w))
   /\ (online (plc w) (wire w) = true ->
       ~ 0 <= addr reg <= 65535 ->
       read_plc reg w = (Raise StructError, w)))
  /\ (type reg = "M" \/ type reg = "Y" ->
      (online (plc w) (wire w) = false ->
       0 <= addr reg <= 65535 ->
       write_plc_bit reg w = (Raise ConnectionException, w))
      /\ (online (plc w) (wire w) = true ->
          ~ 0 <= addr reg <= 65535 ->
          write_plc_bit reg w = (Raise StructError, w)))
  /\ (forall e, fst (x_read w) = Raise e ->
        LivePage.read_plc w = (Raise e, w)).
Proof.
  intros Hc. split; [| split].
  - intros Ht. destruct (polls_known reg Ht) as (q & Hq).
    rewrite read_plc_cases, Hc, Hq. split.
    + intros Hoff _. now rewrite Hoff.
    + intros Hon Ha. rewrite Hon.
      destruct (encodable (addr reg)) eqn:E; [| reflexivity].
      apply encodable_range in E. contradiction.
  - intros Ht.
    assert (Hin : tag_in (type reg) ["M"; "Y"] = true)
      by (destruct Ht as [-> | ->]; reflexivity).
    unfold write_plc_bit, bind, gets, ret, client.write_coil.
    rewrite Hc, Hin. cbn [andb]. rewrite execute_cases. cbn [address]. split.
    + intros Hoff _. now rewrite Hoff.
    + intros Hon Ha. rewrite Hon.
      destruct (encodable (addr reg)) eqn:E; [| reflexivity].
      apply encodable_range in E. contradiction.
  - intros e He. rewrite tick_unfold.
    destruct (x_read w) as [[xr | e'] w1] eqn:Ex; cbn [fst] in He;
      [discriminate He |].
    injection He as ->.
    unfold x_read in Ex.
    destruct (read_plc_effect (x_encoder (CONFIG w)) w)
      as [(r & F & _) | (e'' & F & _)]; rewrite F in Ex;
      [discriminate Ex | now injection Ex as -> ->].
Qed.

Lemma client_errors_propagate_witness :
  read_plc (mkReg "D" (-1)) (startup true bench_plc)
  = (Raise StructError, startup true bench_plc)
  /\ write_plc_bit (mkReg "Y" 70000) (startup true bench_plc)
     = (Raise StructError, startup true bench_plc)
  /\ read_plc (mkReg "M" 12)
       (with_wire [ReadCoils 12 1 1] (startup true dropping_plc))
     = (Raise ConnectionException,
        with_wire [ReadCoils 12 1 1] (startup true dropping_plc)).
Proof.
  destruct (client_errors_propagate (mkReg "D" (-1)) (startup true bench_plc)
              eq_refl) as (H1 & _).
  destruct (client_errors_propagate (mkReg "Y" 70000) (startup true bench_plc)
              eq_refl) as (_ & H2 & _).
  destruct (client_errors_propagate (mkReg "M" 12)
              (with_wire [ReadCoils 12 1 1] (startup true dropping_plc))
              eq_refl) as (H3 & _).
  destruct (H1 eq_refl) as (_ & E1). destruct (H2 (or_intror eq_refl)) as (_ & E2).
  destruct (H3 eq_refl) as (E3 & _).
  split; [| split].
  - apply E1; [reflexivity | cbn; lia].
  - apply E2; [reflexivity | cbn; lia].
  - apply E3; [reflexivity | cbn; lia].
Defined.
